(** * nautilus-pandoc-convert: a shallow embedding of [pandoc_converter.py]

    The script is a Nautilus menu extension.  It discovers pandoc defaults
    files ([_find_defaults_files]), offers one sub menu entry per defaults
    file for a selected Markdown file ([get_file_items]) and converts the
    file in a child process ([_run_conversion]).

    Modelling conventions.
    - A Python [str] is a Rocq [string]; text is taken to be ASCII where a
      case mapping is applied ([lower] maps [A-Z] only).
    - [pathlib.PurePosixPath] (Python 3.11) is a record of the root and the
      list of components below it.
    - The file system, the YAML loader, and the processes started through
      [subprocess.run] are an oracle, the record [World].
    - An exception is a value; a raising computation returns it. *)

From Stdlib Require Import String Ascii List ZArith Lia Bool Arith DecimalString.
Import ListNotations.

#[local] Set Warnings "-register-all".

Local Open Scope list_scope.
Local Open Scope string_scope.

(** ** Python strings *)

Module PyStr.

(** [len(s)] *)
Definition len (s : string) : Z := Z.of_nat (String.length s).

(** [c in s] for a one character string [c] *)
Fixpoint contains (c : ascii) (s : string) : bool :=
  match s with
  | EmptyString => false
  | String a s' => Ascii.eqb a c || contains c s'
  end.

(** The scan behind [s.rfind(c)]: [last] is the answer so far and [i] the
    index of the head of [s]. *)
Fixpoint rfind_from (c : ascii) (s : string) (i last : Z) : Z :=
  match s with
  | EmptyString => last
  | String a s' => rfind_from c s' (i + 1) (if Ascii.eqb a c then i else last)
  end.

(** [s.rfind(c)]: the highest index of [c] in [s], or [-1]. *)
Definition rfind (c : ascii) (s : string) : Z := rfind_from c s 0 (-1).

Fixpoint take (n : nat) (s : string) : string :=
  match n, s with
  | S n', String a s' => String a (take n' s')
  | _, _ => EmptyString
  end.

Fixpoint drop (n : nat) (s : string) : string :=
  match n, s with
  | S n', String _ s' => drop n' s'
  | _, _ => s
  end.

(** [s[:i]] and [s[i:]] for an index [0 <= i]. *)
Definition slice_to (i : Z) (s : string) : string := take (Z.to_nat i) s.
Definition slice_from (i : Z) (s : string) : string := drop (Z.to_nat i) s.

(** [s.startswith(p)] *)
Definition startswith (p s : string) : bool := String.prefix p s.

(** [s.endswith(p)] *)
Definition endswith (p s : string) : bool :=
  (String.length p <=? String.length s)%nat
  && String.eqb (drop (String.length s - String.length p) s) p.

(** [s.lstrip(c)] *)
Fixpoint lstrip (c : ascii) (s : string) : string :=
  match s with
  | String a s' => if Ascii.eqb a c then lstrip c s' else s
  | EmptyString => EmptyString
  end.

(** Splitting at every character of a class: [s.split(c)] for a one
    character separator and [re.split("[...]", s)] for a character class.
    The result is never empty. *)
Fixpoint split_by (sep : ascii -> bool) (s : string) : list string :=
  match s with
  | EmptyString => [EmptyString]
  | String a s' =>
      if sep a then EmptyString :: split_by sep s'
      else match split_by sep s' with
           | w :: ws => String a w :: ws
           | [] => [String a EmptyString]
           end
  end.

(** [sep.join(parts)] *)
Fixpoint join (sep : string) (parts : list string) : string :=
  match parts with
  | [] => EmptyString
  | [p] => p
  | p :: ps => (p ++ sep ++ join sep ps)%string
  end.

Definition lower_char (a : ascii) : ascii :=
  let n := nat_of_ascii a in
  if ((65 <=? n) && (n <=? 90))%nat then ascii_of_nat (n + 32) else a.

(** [s.lower()] on ASCII text *)
Fixpoint lower (s : string) : string :=
  match s with
  | EmptyString => EmptyString
  | String a s' => String (lower_char a) (lower s')
  end.

(** [x in xs] for a list of strings *)
Fixpoint in_list (x : string) (xs : list string) : bool :=
  match xs with
  | [] => false
  | y :: ys => String.eqb x y || in_list x ys
  end.

End PyStr.

(** ** [urllib.parse.unquote] *)

Module Urllib.

Definition hex_val (a : ascii) : option nat :=
  let n := nat_of_ascii a in
  if ((48 <=? n) && (n <=? 57))%nat then Some (n - 48)%nat
  else if ((65 <=? n) && (n <=? 70))%nat then Some (n - 55)%nat
  else if ((97 <=? n) && (n <=? 102))%nat then Some (n - 87)%nat
  else None.

Definition hex_byte (h l : ascii) : option ascii :=
  match hex_val h, hex_val l with
  | Some x, Some y => Some (ascii_of_nat (16 * x + y))
  | _, _ => None
  end.

(** A [%] followed by two hexadecimal digits is replaced by the byte they
    denote; any other [%] stays.  (The UTF-8 decoding of the bytes is the
    identity on this byte level model of text.) *)
Fixpoint unquote (s : string) : string :=
  match s with
  | EmptyString => EmptyString
  | String a s' =>
      match s' with
      | String h (String l rest) =>
          match (if Ascii.eqb a "%" then hex_byte h l else None) with
          | Some b => String b (unquote rest)
          | None => String a (unquote s')
          end
      | _ => String a (unquote s')
      end
  end.

End Urllib.

(** ** Exceptions and results *)

(** The exception classes that occur.  [OSError] is also [IOError] and
    stands for its subclasses too ([FileNotFoundError], ...); [ValueError]
    covers [UnicodeDecodeError]. *)
Inductive exn_class : Type :=
| YAMLError
| OSError
| AttributeError
| TypeError
| ValueError
| CalledProcessError
| UnboundLocalError
| RuntimeError.

(** An exception object; [message e] is [str(e)]. *)
Record exn : Type := mkExn { cls : exn_class; message : string }.

Inductive result (A : Type) : Type :=
| Returned (a : A)
| Raised (e : exn).
Arguments Returned {A} a.
Arguments Raised {A} e.

Definition result_bind {A B : Type} (r : result A) (k : A -> result B) : result B :=
  match r with
  | Returned a => k a
  | Raised e => Raised e
  end.

Notation "'let*' x ':=' r 'in' k" := (result_bind r (fun x => k))
  (at level 10, x name, r at level 100, k at level 200).

(** ** [pathlib.PurePosixPath] *)

Module Pathlib.

(** A parsed path: [root] is [""], ["/"] or ["//"]; [tail] holds the
    components below the root. *)
Record PurePath : Type := mkPath { root : string; tail : list string }.

(** [_PosixFlavour.splitroot] *)
Definition splitroot (part : string) : string * string :=
  match part with
  | String "/" _ =>
      let stripped_part := PyStr.lstrip "/" part in
      if (PyStr.len part - PyStr.len stripped_part =? 2)%Z
      then ("//", stripped_part)
      else ("/", stripped_part)
  | _ => ("", part)
  end.

Definition is_sep (a : ascii) : bool := Ascii.eqb a "/".

(** The components kept by [parse_parts]: [x and x != '.'] *)
Definition keep_part (x : string) : bool :=
  negb (String.eqb x "") && negb (String.eqb x ".").

(** [Path(s)] *)
Definition Path (s : string) : PurePath :=
  let (r, rel) := splitroot s in
  mkPath r (filter keep_part (PyStr.split_by is_sep rel)).

(** [str(p)] *)
Definition str (p : PurePath) : string :=
  let s := (root p ++ PyStr.join "/" (tail p))%string in
  if String.eqb s "" then "." else s.

(** [p / child] for a string [child] *)
Definition joinpath (p : PurePath) (child : string) : PurePath :=
  let c := Path child in
  if String.eqb (root c) "" then mkPath (root p) (tail p ++ tail c)%list else c.

(** [p._make_child_relpath(name)], used by [glob] for a directory entry *)
Definition make_child_relpath (p : PurePath) (entry : string) : PurePath :=
  mkPath (root p) (tail p ++ [entry])%list.

(** [p.name] *)
Definition name (p : PurePath) : string := last (tail p) "".

(** [p.parent] *)
Definition parent (p : PurePath) : PurePath :=
  mkPath (root p) (removelast (tail p)).

(** The test [0 < i < len(name) - 1] shared by [suffix] and [stem]. *)
Definition splits_at (nm : string) (i : Z) : bool :=
  ((0 <? i) && (i <? PyStr.len nm - 1))%Z.

Definition suffix_of_name (nm : string) : string :=
  let i := PyStr.rfind "." nm in
  if splits_at nm i then PyStr.slice_from i nm else "".

Definition stem_of_name (nm : string) : string :=
  let i := PyStr.rfind "." nm in
  if splits_at nm i then PyStr.slice_to i nm else nm.

(** [p.suffix] and [p.stem] *)
Definition suffix (p : PurePath) : string := suffix_of_name (name p).
Definition stem (p : PurePath) : string := stem_of_name (name p).

(** [repr(p)] *)
Definition repr (p : PurePath) : string := "PosixPath('" ++ str p ++ "')".

(** [p.with_suffix(suffix)] *)
Definition with_suffix (p : PurePath) (sfx : string) : result PurePath :=
  if PyStr.contains "/" sfx
  then Raised (mkExn ValueError ("Invalid suffix '" ++ sfx ++ "'"))
  else if (negb (String.eqb sfx "") && negb (PyStr.startswith "." sfx))
          || String.eqb sfx "."
  then Raised (mkExn ValueError ("Invalid suffix '" ++ sfx ++ "'"))
  else
    let nm := name p in
    if String.eqb nm ""
    then Raised (mkExn ValueError (repr p ++ " has an empty name"))
    else
      let old_suffix := suffix p in
      let nm' :=
        if String.eqb old_suffix "" then nm ++ sfx
        else PyStr.slice_to (PyStr.len nm - PyStr.len old_suffix) nm ++ sfx in
      Returned (mkPath (root p) (removelast (tail p) ++ [nm'])%list).

(** [p.glob("*.yaml")] over the entries of the directory [p] *)
Definition glob_yaml (entries : list string) (p : PurePath) : list PurePath :=
  map (make_child_relpath p) (filter (PyStr.endswith ".yaml") entries).

End Pathlib.

(** ** YAML documents as [yaml.safe_load] returns them *)

Module Yaml.

(** [Map] holds the items of the loaded [dict], whose keys are distinct.
    [Other] stands for the remaining Python values a document can load to
    (floats, dates, byte strings, sets): they have no [get] method and
    only their truth value matters here. *)
Inductive value : Type :=
| Null
| Bool (b : bool)
| Int (z : Z)
| Str (s : string)
| Seq (xs : list value)
| Map (items : list (value * value))
| Other (truth : bool).

(** [bool(v)] *)
Definition truthy (v : value) : bool :=
  match v with
  | Null => false
  | Bool b => b
  | Int z => negb (z =? 0)%Z
  | Str s => negb (String.eqb s "")
  | Seq xs => match xs with [] => false | _ => true end
  | Map items => match items with [] => false | _ => true end
  | Other truth => truth
  end.

(** [k == key] for a string [key] *)
Definition key_is (key : string) (k : value) : bool :=
  match k with
  | Str s => String.eqb s key
  | _ => false
  end.

(** [d.get(key)] on the items of a dict: the value, or [None] *)
Fixpoint dict_get (key : string) (items : list (value * value)) : value :=
  match items with
  | [] => Null
  | (k, v) :: rest => if key_is key k then v else dict_get key rest
  end.

(** [key in d] *)
Definition has_key (key : string) (items : list (value * value)) : bool :=
  existsb (fun kv => key_is key (fst kv)) items.

End Yaml.

(** ** The environment of the script *)

(** What a started process does: it exits with a status, or it cannot be
    started at all ([subprocess.run] raises, e.g. [FileNotFoundError]). *)
Inductive proc_outcome : Type :=
| Exited (status : Z)
| LaunchFailed (e : exn).

Record World : Type := mkWorld {
  (** [os.getenv("XDG_DATA_HOME")], [None] when unset *)
  getenv_XDG_DATA_HOME : option string;
  (** [os.path.expanduser] on a first path component *)
  os_path_expanduser : string -> string;
  (** [Path.is_dir], by the text of the path *)
  is_dir : string -> bool;
  (** the entry names of a directory *)
  scandir : string -> list string;
  (** reading the file at a path and [yaml.safe_load] of its text *)
  safe_load : string -> result Yaml.value;
  (** the process started for an argument vector and a working directory *)
  run_process : list string -> option string -> proc_outcome
}.

(** ** The extension *)

Import Pathlib.

Definition FORMAT_EXTENSIONS : list (string * string) :=
  [ ("docx", ".docx");
    ("epub", ".epub");
    ("html", ".html");
    ("markdown", ".md");
    ("odt", ".odt");
    ("pdf", ".pdf");
    ("pptx", ".pptx");
    ("tei", ".xml");
    ("latex", ".tex");
    ("typst", ".typ");
    ("revealjs", ".html") ].

(** [table.get(key, default)] on a table of strings *)
Fixpoint table_get (table : list (string * string)) (key default : string) : string :=
  match table with
  | [] => default
  | (k, v) :: rest => if String.eqb k key then v else table_get rest key default
  end.

(** [Path.expanduser] *)
Definition expanduser (w : World) (p : PurePath) : result PurePath :=
  if String.eqb (root p) "" then
    match tail p with
    | first :: rest =>
        if PyStr.startswith "~" first then
          let homedir := os_path_expanduser w first in
          if PyStr.startswith "~" homedir
          then Raised (mkExn RuntimeError "Could not determine home directory.")
          else let h := Path homedir in Returned (mkPath (root h) (tail h ++ rest)%list)
        else Returned p
    | [] => Returned p
    end
  else Returned p.

(** [Path.home()] *)
Definition Path_home (w : World) : result PurePath := expanduser w (Path "~").

Definition _get_pandoc_data_dir (w : World) : result (option PurePath) :=
  let getenv := match getenv_XDG_DATA_HOME w with
                | Some v => v
                | None => "~/.local/share"
                end in
  let* xdg_data_home := expanduser w (Path getenv) in
  let* home := Path_home w in
  let possible_paths := [joinpath xdg_data_home "pandoc"; joinpath home ".pandoc"] in
  Returned (find (fun path => is_dir w (str path)) possible_paths).

(** The [Dict[str, Path]] of the extension, in insertion order. *)
Definition Dict : Type := list (string * PurePath).

(** [d[k] = v] *)
Fixpoint dict_set (k : string) (v : PurePath) (d : Dict) : Dict :=
  match d with
  | [] => [(k, v)]
  | (k', v') :: d' =>
      if String.eqb k' k then (k, v) :: d' else (k', v') :: dict_set k v d'
  end.

(** [config.get(key)]: only a dict has the method.  (The text of the
    [AttributeError] leaves out the name of the type.) *)
Definition config_get (config : Yaml.value) (key : string) : result Yaml.value :=
  match config with
  | Yaml.Map items => Returned (Yaml.dict_get key items)
  | _ => Raised (mkExn AttributeError ("object has no attribute 'get'"))
  end.

(** [config.get("to") or config.get("write")] *)
Definition output_format_of (config : Yaml.value) : result Yaml.value :=
  let* to := config_get config "to" in
  if Yaml.truthy to then Returned to else config_get config "write".

(** The [try] block of the loop of [_find_defaults_files] for one file. *)
Definition try_defaults_file (w : World) (filepath : PurePath) (defaults_files : Dict)
  : result Dict :=
  let* config := safe_load w (str filepath) in
  let* output_format := output_format_of config in
  if Yaml.truthy output_format then
    let menu_name := stem filepath in
    Returned (dict_set menu_name filepath defaults_files)
  else Returned defaults_files.

(** [except (yaml.YAMLError, IOError)] *)
Definition caught_in_discovery (e : exn) : bool :=
  match cls e with
  | YAMLError | OSError => true
  | _ => false
  end.

(** The loop of [_find_defaults_files]. *)
Fixpoint scan_defaults (w : World) (files : list PurePath) (defaults_files : Dict)
  : result Dict :=
  match files with
  | [] => Returned defaults_files
  | filepath :: rest =>
      match try_defaults_file w filepath defaults_files with
      | Returned defaults_files' => scan_defaults w rest defaults_files'
      | Raised e =>
          if caught_in_discovery e then scan_defaults w rest defaults_files
          else Raised e
      end
  end.

Definition _find_defaults_files (w : World) : result Dict :=
  let defaults_files : Dict := [] in
  let* data_dir := _get_pandoc_data_dir w in
  match data_dir with
  | None => Returned defaults_files
  | Some data_dir =>
      let defaults_dir := joinpath data_dir "defaults" in
      if negb (is_dir w (str defaults_dir)) then Returned defaults_files
      else scan_defaults w (glob_yaml (scandir w (str defaults_dir)) defaults_dir)
             defaults_files
  end.

(** ** The child process

    The body of [_run_conversion] runs in a frame: the local variable
    [input_path_obj], unbound until its assignment, and the processes
    started so far. *)

Record call : Type := mkCall { argv : list string; cwd : option string }.

Record frame : Type := mkFrame {
  input_path_obj : option PurePath;
  calls : list call
}.

(** How a block of statements ends: it runs to its end, executes [return],
    or raises. *)
Inductive completion (A : Type) : Type :=
| Normal (a : A)
| Return_
| Raise (e : exn).
Arguments Normal {A} a.
Arguments Return_ {A}.
Arguments Raise {A} e.

Definition M (A : Type) : Type := frame -> completion A * frame.

Definition ret {A : Type} (a : A) : M A := fun fr => (Normal a, fr).

Definition bind {A B : Type} (m : M A) (k : A -> M B) : M B :=
  fun fr =>
    match m fr with
    | (Normal a, fr') => k a fr'
    | (Return_, fr') => (Return_, fr')
    | (Raise e, fr') => (Raise e, fr')
    end.

Notation "x <- m ;; k" := (bind m (fun x => k))
  (at level 61, m at next level, right associativity).
Notation "m ;; k" := (bind m (fun _ => k))
  (at level 61, right associativity).

(** [return] *)
Definition return_ {A : Type} : M A := fun fr => (Return_, fr).

(** [raise e] *)
Definition raise {A : Type} (e : exn) : M A := fun fr => (Raise e, fr).

Definition lift {A : Type} (r : result A) : M A :=
  match r with
  | Returned a => ret a
  | Raised e => raise e
  end.

(** [try: body except Exception as e: handler e] *)
Definition try_except {A : Type} (body : M A) (handler : exn -> M A) : M A :=
  fun fr =>
    match body fr with
    | (Raise e, fr') => handler e fr'
    | r => r
    end.

(** [input_path_obj = p] *)
Definition set_input_path_obj (p : PurePath) : M unit :=
  fun fr => (Normal tt, mkFrame (Some p) (calls fr)).

(** The exception a read of [input_path_obj] raises before its
    assignment. *)
Definition unbound_input_path_obj : exn :=
  mkExn UnboundLocalError
    "cannot access local variable 'input_path_obj' where it is not associated with a value".

(** reading the local variable [input_path_obj] *)
Definition get_input_path_obj : M PurePath :=
  fun fr =>
    match input_path_obj fr with
    | Some p => (Normal p, fr)
    | None => (Raise unbound_input_path_obj, fr)
    end.

(** [repr] of a list of strings (of strings that need no escape) *)
Definition repr_list (xs : list string) : string :=
  "[" ++ PyStr.join ", " (map (fun x => "'" ++ x ++ "'") xs) ++ "]".

(** [str(CalledProcessError(status, cmd))] for an exit status *)
Definition called_process_error (status : Z) (cmd : list string) : exn :=
  mkExn CalledProcessError
    ("Command '" ++ repr_list cmd ++ "' returned non-zero exit status "
       ++ NilZero.string_of_int (Z.to_int status) ++ ".").

(** [subprocess.run(argv, cwd=cwd, check=check)] *)
Definition subprocess_run (w : World) (args : list string) (dir : option string)
    (check : bool) : M unit :=
  fun fr =>
    let fr' := mkFrame (input_path_obj fr) (calls fr ++ [mkCall args dir])%list in
    match run_process w args dir with
    | LaunchFailed e => (Raise e, fr')
    | Exited status =>
        if check && negb (status =? 0)%Z
        then (Raise (called_process_error status args), fr')
        else (Normal tt, fr')
    end.

Definition is_plus_or_minus (a : ascii) : bool :=
  Ascii.eqb a "+" || Ascii.eqb a "-".

(** [re.split(r"[+-]", s)] *)
Definition re_split_plus_minus (s : string) : list string :=
  PyStr.split_by is_plus_or_minus s.

(** [re.split(r"[+-]", output_format)[0]]; the pattern accepts a string
    only. *)
Definition base_format_of (output_format : Yaml.value) : result string :=
  match output_format with
  | Yaml.Str s => Returned (hd "" (re_split_plus_minus s))
  | _ => Raised (mkExn TypeError "expected string or bytes-like object")
  end.

(** [FORMAT_EXTENSIONS.get(base_format, f".{base_format}")] *)
Definition extension_of (base_format : string) : string :=
  table_get FORMAT_EXTENSIONS base_format ("." ++ base_format).

(** Lines 83 to 88: the output path for an input path and an output
    format. *)
Definition output_path_of (input_path : string) (output_format : Yaml.value)
  : result PurePath :=
  let* base_format := base_format_of output_format in
  let extension := extension_of base_format in
  let input_path_obj := Path input_path in
  with_suffix input_path_obj extension.

(** The [try] block of [_run_conversion]. *)
Definition _run_conversion_try (w : World) (input_path defaults_file : string) : M unit :=
  config <- lift (safe_load w defaults_file) ;;
  output_format <- lift (output_format_of config) ;;
  if negb (Yaml.truthy output_format) then return_
  else
    base_format <- lift (base_format_of output_format) ;;
    let extension := extension_of base_format in
    set_input_path_obj (Path input_path) ;;
    p <- get_input_path_obj ;;
    output_path <- lift (with_suffix p extension) ;;
    subprocess_run w
      ["pandoc"; "-d"; defaults_file; input_path; "-o"; str output_path]
      (Some (str (parent p))) true ;;
    p <- get_input_path_obj ;;
    subprocess_run w
      ["notify-send"; "Pandoc Conversion Complete";
       "Converted " ++ name p ++ " to " ++ name output_path]
      None false.

(** The [except Exception as e] block of [_run_conversion]. *)
Definition _run_conversion_except (w : World) (e : exn) : M unit :=
  p <- get_input_path_obj ;;
  subprocess_run w
    ["notify-send"; "Pandoc Conversion Error";
     "Error converting " ++ name p ++ ": " ++ message e]
    None false.

Definition empty_frame : frame := mkFrame None [].

(** How a call ends whose body ended with [c]. *)
Definition end_call (c : completion unit) : result unit :=
  match c with
  | Normal _ | Return_ => Returned tt
  | Raise e => Raised e
  end.

(** [_run_conversion(input_path, defaults_file)]: how the call ends and the
    processes it has started, in order. *)
Definition _run_conversion (w : World) (input_path defaults_file : string)
  : result unit * list call :=
  let (c, fr) :=
    try_except (_run_conversion_try w input_path defaults_file)
               (_run_conversion_except w) empty_frame in
  (end_call c, calls fr).

(** [_convert_file]: the child process runs [_run_conversion] on the texts
    of the two paths. *)
Definition _convert_file (w : World) (input_path defaults_file : PurePath)
  : result unit * list call :=
  _run_conversion w (str input_path) (str defaults_file).

(** ** The menu *)

Record FileInfo : Type := mkFileInfo { get_uri : string }.

(** A [Nautilus.MenuItem]: its properties, the items of its sub menu and the
    arguments its [activate] handler passes to [_convert_file]. *)
Inductive MenuItem : Type :=
| mkMenuItem (item_name label tip : string) (submenu : list MenuItem)
    (activate : option (PurePath * PurePath)).

Definition submenu_of (item : MenuItem) : list MenuItem :=
  match item with mkMenuItem _ _ _ sub _ => sub end.

Definition label_of (item : MenuItem) : string :=
  match item with mkMenuItem _ l _ _ _ => l end.

Definition activate_of (item : MenuItem) : option (PurePath * PurePath) :=
  match item with mkMenuItem _ _ _ _ a => a end.

(** The path of a selected file: [Path(unquote(file_info.get_uri()[7:]))] *)
Definition file_path_of (file_info : FileInfo) : PurePath :=
  Path (Urllib.unquote (PyStr.slice_from 7 (get_uri file_info))).

(** The sub menu item of one defaults file. *)
Definition sub_item_of (file_path : PurePath) (entry : string * PurePath) : MenuItem :=
  let (menu_name, defaults_path) := entry in
  mkMenuItem ("PandocConverter::Convert::" ++ menu_name) menu_name
    ("Convert using " ++ menu_name ++ " defaults") []
    (Some (file_path, defaults_path)).

Definition get_file_items (defaults_files : Dict) (files : list FileInfo)
  : list MenuItem :=
  if negb (Nat.eqb (List.length files) 1) then []
  else
    match files with
    | [] => []
    | file_info :: _ =>
        let file_path := file_path_of file_info in
        if negb (PyStr.in_list (PyStr.lower (suffix file_path)) [".md"; ".markdown"])
        then []
        else
          let submenu := map (sub_item_of file_path) defaults_files in
          let convert_item :=
            mkMenuItem "PandocConverter::Convert" "Convert" "Convert using Pandoc"
              submenu None in
          match defaults_files with
          | [] => []
          | _ :: _ => [convert_item]
          end
    end.

Definition get_background_items : list MenuItem := [].

(** ** Notions used to state the properties *)

(** The prefix of [s] before its first character of the class [sep]; all of
    [s] if it has none. *)
Fixpoint prefix_before_first (sep : ascii -> bool) (s : string) : string :=
  match s with
  | EmptyString => EmptyString
  | String a s' => if sep a then EmptyString else String a (prefix_before_first sep s')
  end.

(** The value a table binds to a key, if any. *)
Definition table_lookup (table : list (string * string)) (key : string) : option string :=
  option_map snd (find (fun kv => String.eqb (fst kv) key) table).

(** The number of entries of a dict under a key. *)
Definition count_key (k : string) (d : Dict) : nat :=
  List.length (filter (fun kv => String.eqb (fst kv) k) d).

(** A document declares an output format in a field when the field holds a
    non-empty string. *)
Definition declares_format_in (field : string) (items : list (Yaml.value * Yaml.value)) : Prop :=
  exists s, s <> "" /\ Yaml.dict_get field items = Yaml.Str s.

Definition declares_output_format (items : list (Yaml.value * Yaml.value)) : Prop :=
  declares_format_in "to" items \/ declares_format_in "write" items.

(** A name that can follow the dot of a file extension: it is not empty
    and has no slash. *)
Definition extension_name (x : string) : Prop :=
  x <> "" /\ PyStr.contains "/" x = false.

(** The selected file counts as Markdown for the menu. *)
Definition is_markdown (file_info : FileInfo) : Prop :=
  let sfx := PyStr.lower (suffix (file_path_of file_info)) in
  sfx = ".md" \/ sfx = ".markdown".

(** The one item offered for a Markdown file. *)
Definition convert_item (defaults_files : Dict) (file_info : FileInfo) : MenuItem :=
  mkMenuItem "PandocConverter::Convert" "Convert" "Convert using Pandoc"
    (map (sub_item_of (file_path_of file_info)) defaults_files) None.

(** ** Example environments

    A user [u] with the data directory [/home/u/.pandoc], whose [defaults]
    directory has the entries [entries]; [docs] gives what loading a file
    does and [pandoc] what a started pandoc does; [notify-send] runs. *)
Definition example_world (entries : list string)
    (docs : string -> result Yaml.value) (pandoc : proc_outcome) : World :=
  mkWorld None
    (fun part => if String.eqb part "~" then "/home/u" else part)
    (fun d => PyStr.in_list d ["/home/u/.pandoc"; "/home/u/.pandoc/defaults"])
    (fun d => if String.eqb d "/home/u/.pandoc/defaults" then entries else [])
    docs
    (fun args _ => match args with
                   | "pandoc" :: _ => pandoc
                   | _ => Exited 0
                   end).

Definition no_such_file : exn :=
  mkExn OSError "[Errno 2] No such file or directory: '/home/u/.pandoc/defaults/gone.yaml'".

(** [html.yaml] holds [to: html], [empty.yaml] is an empty document, which
    loads to [None], and [blank.yaml] holds [to:] and [write: html]. *)
Definition example_docs (path : string) : result Yaml.value :=
  if String.eqb path "/home/u/.pandoc/defaults/html.yaml"
  then Returned (Yaml.Map [(Yaml.Str "to", Yaml.Str "html")])
  else if String.eqb path "/home/u/.pandoc/defaults/empty.yaml"
  then Returned Yaml.Null
  else if String.eqb path "/home/u/.pandoc/defaults/blank.yaml"
  then Returned (Yaml.Map [(Yaml.Str "to", Yaml.Null); (Yaml.Str "write", Yaml.Str "html")])
  else if String.eqb path "/home/u/.pandoc/defaults/filter.yaml"
  then Returned (Yaml.Map [(Yaml.Str "filters", Yaml.Seq [Yaml.Str "pandoc-crossref"])])
  else Raised no_such_file.

(** ** The extension object and further notions *)

(** An instance of [PandocConverterExtension]: its attribute. *)
Record PandocConverterExtension : Type := mkExtension { defaults_files : Dict }.

(** [__init__]: the instance, if the call returns, and the lines printed. *)
Definition __init__ (w : World) : result PandocConverterExtension * list string :=
  match _find_defaults_files w with
  | Returned d => (Returned (mkExtension d), ["Initializing Nautilus Pandoc Converter"])
  | Raised e => (Raised e, [])
  end.

(** [self.get_file_items(files)] *)
Definition get_file_items_of (self : PandocConverterExtension) (files : list FileInfo)
  : list MenuItem :=
  get_file_items (defaults_files self) files.

Definition item_name_of (item : MenuItem) : string :=
  match item with mkMenuItem n _ _ _ _ => n end.

(** What the [activate] handler of an item runs, if it has one. *)
Definition on_activate (w : World) (item : MenuItem) : option (result unit * list call) :=
  match activate_of item with
  | Some (path, df) => Some (_convert_file w path df)
  | None => None
  end.

(** A file that discovery records: it loads to a dict whose [to] or [write]
    is true. *)
Definition records_profile (w : World) (filepath : PurePath) : Prop :=
  exists items,
    safe_load w (str filepath) = Returned (Yaml.Map items)
    /\ Yaml.truthy (Yaml.dict_get "to" items) || Yaml.truthy (Yaml.dict_get "write" items)
       = true.

(** A file whose load raises an exception that discovery catches. *)
Definition unreadable (w : World) (filepath : PurePath) : bool :=
  match safe_load w (str filepath) with
  | Raised e => caught_in_discovery e
  | Returned _ => false
  end.

(** The paths that [Path] builds: a root out of three, and components that
    are not empty, not a dot and hold no slash. *)
Definition component_ok (x : string) : Prop :=
  x <> "" /\ x <> "." /\ PyStr.contains "/" x = false.

Definition well_formed (p : PurePath) : Prop :=
  (root p = "" \/ root p = "/" \/ root p = "//") /\ Forall component_ok (tail p).

(** The three kinds of process [_run_conversion] starts. *)
Definition pandoc_call (input_path defaults_file out : string) : call :=
  mkCall ["pandoc"; "-d"; defaults_file; input_path; "-o"; out]
    (Some (str (parent (Path input_path)))).

Definition notify_call (title body : string) : call :=
  mkCall ["notify-send"; title; body] None.

Definition error_body (input_path : string) (e : exn) : string :=
  "Error converting " ++ name (Path input_path) ++ ": " ++ message e.

(** A started [notify-send]. *)
Definition is_notify (c : call) : Prop := exists title body, c = notify_call title body.

(** The error notification for [e] after the processes [started]: how the
    call then ends and what it has started. *)
Definition notify_error (w : World) (input_path : string) (e : exn)
    (started : list call) : result unit * list call :=
  let c := notify_call "Pandoc Conversion Error" (error_body input_path e) in
  match run_process w (argv c) (cwd c) with
  | Exited _ => (Returned tt, started ++ [c])%list
  | LaunchFailed e' => (Raised e', started ++ [c])%list
  end.

(** * Properties *)

(** ** Strings *)

Section StringFacts.

Lemma length_app (s t : string) :
  String.length (s ++ t) = (String.length s + String.length t)%nat.
Proof. induction s as [|a s IH]; simpl; [reflexivity | now rewrite IH]. Qed.

Lemma take_app (s t : string) : PyStr.take (String.length s) (s ++ t) = s.
Proof. induction s as [|a s IH]; simpl; [now destruct t | now rewrite IH]. Qed.

Lemma drop_app (s t : string) : PyStr.drop (String.length s) (s ++ t) = t.
Proof. induction s as [|a s IH]; simpl; [now destruct t | exact IH]. Qed.

Lemma take_drop (n : nat) (s : string) : (PyStr.take n s ++ PyStr.drop n s) = s.
Proof.
  revert s; induction n as [|n IH]; intros [|a s]; simpl; try reflexivity.
  now rewrite IH.
Qed.

Lemma length_take (n : nat) (s : string) :
  (n <= String.length s)%nat -> String.length (PyStr.take n s) = n.
Proof.
  revert s; induction n as [|n IH]; intros [|a s]; simpl; intros H;
    try reflexivity; try lia.
  rewrite IH; lia.
Qed.

Lemma length_drop (n : nat) (s : string) :
  String.length (PyStr.drop n s) = (String.length s - n)%nat.
Proof.
  revert s; induction n as [|n IH]; intros [|a s]; simpl; try reflexivity.
  apply IH.
Qed.

Lemma rfind_from_absent (c : ascii) (s : string) (i last : Z) :
  PyStr.contains c s = false -> PyStr.rfind_from c s i last = last.
Proof.
  revert i last; induction s as [|a s IH]; simpl; intros i last H.
  - reflexivity.
  - apply orb_false_iff in H as [Ha Hs]. rewrite Ha. now apply IH.
Qed.

Lemma rfind_from_last (c : ascii) (b x : string) (i last : Z) :
  PyStr.contains c x = false ->
  PyStr.rfind_from c (b ++ String c x) i last = (i + PyStr.len b)%Z.
Proof.
  intros Hx. revert i last; induction b as [|a b IH]; simpl; intros i last.
  - rewrite Ascii.eqb_refl, rfind_from_absent by assumption.
    unfold PyStr.len; simpl; lia.
  - rewrite IH. unfold PyStr.len; simpl String.length. lia.
Qed.

Lemma rfind_last (c : ascii) (b x : string) :
  PyStr.contains c x = false -> PyStr.rfind c (b ++ String c x) = PyStr.len b.
Proof. intros Hx. unfold PyStr.rfind. now rewrite rfind_from_last. Qed.

Lemma rfind_from_bounds (c : ascii) (s : string) (i last : Z) :
  let r := PyStr.rfind_from c s i last in
  r = last \/ (i <= r < i + PyStr.len s)%Z.
Proof.
  revert i last; induction s as [|a s IH]; simpl; intros i last.
  - now left.
  - unfold PyStr.len; simpl String.length.
    specialize (IH (i + 1)%Z (if Ascii.eqb a c then i else last)).
    unfold PyStr.len in IH. destruct IH as [IH | IH].
    + rewrite IH. destruct (Ascii.eqb a c); [right; lia | now left].
    + right. lia.
Qed.

Lemma split_by_hd (sep : ascii -> bool) (s : string) :
  hd "" (PyStr.split_by sep s) = prefix_before_first sep s.
Proof.
  induction s as [|a s IH]; simpl; [reflexivity|].
  destruct (sep a); [reflexivity|].
  destruct (PyStr.split_by sep s) as [|w ws]; simpl in *.
  - now rewrite <- IH.
  - now rewrite IH.
Qed.

Lemma split_by_nonempty (sep : ascii -> bool) (s : string) :
  PyStr.split_by sep s <> [].
Proof.
  induction s as [|a s IH]; simpl; [discriminate|].
  destruct (sep a); [discriminate|].
  destruct (PyStr.split_by sep s); discriminate.
Qed.

Lemma prefix_before_first_split (sep : ascii -> bool) (s : string) :
  exists rest,
    s = prefix_before_first sep s ++ rest
    /\ (rest = "" \/ exists c r, rest = String c r /\ sep c = true).
Proof.
  induction s as [|a s (rest & Hs & Hrest)]; simpl.
  - exists "". split; [reflexivity | now left].
  - destruct (sep a) eqn:Ha.
    + exists (String a s). split; [reflexivity | right; now exists a, s].
    + exists rest. split; [simpl; now rewrite <- Hs | exact Hrest].
Qed.

Lemma prefix_before_first_free (sep : ascii -> bool) (c : ascii) (s : string) :
  sep c = true -> PyStr.contains c (prefix_before_first sep s) = false.
Proof.
  intros Hc. induction s as [|a s IH]; simpl; [reflexivity|].
  destruct (sep a) eqn:Ha; simpl; [reflexivity|].
  rewrite IH, orb_false_r. apply Ascii.eqb_neq. intros ->. congruence.
Qed.

End StringFacts.

(** ** Paths *)

Section PathFacts.

Lemma nonempty_length (s : string) : s <> "" <-> (0 < String.length s)%nat.
Proof. destruct s; simpl; split; intros H; try lia; congruence. Qed.

(** The part of a name that [with_suffix] keeps is its stem. *)
Lemma kept_part_is_stem (nm : string) :
  nm <> "" ->
  let old_suffix := suffix_of_name nm in
  let kept := if String.eqb old_suffix "" then nm
              else PyStr.slice_to (PyStr.len nm - PyStr.len old_suffix) nm in
  kept = stem_of_name nm /\ kept <> "".
Proof.
  intros Hnm. unfold suffix_of_name, stem_of_name.
  set (i := PyStr.rfind "." nm).
  destruct (splits_at nm i) eqn:E; cbv zeta.
  - unfold splits_at in E. apply andb_true_iff in E as [E1 E2].
    apply Z.ltb_lt in E1, E2. unfold PyStr.len in E2.
    assert (Hlen : String.length (PyStr.slice_from i nm)
                   = (String.length nm - Z.to_nat i)%nat)
      by apply length_drop.
    assert (Hne : String.eqb (PyStr.slice_from i nm) "" = false).
    { apply String.eqb_neq. apply nonempty_length. lia. }
    rewrite Hne. unfold PyStr.slice_to, PyStr.len. rewrite Hlen.
    replace (Z.to_nat (Z.of_nat (String.length nm)
               - Z.of_nat (String.length nm - Z.to_nat i)))
      with (Z.to_nat i) by lia.
    split; [reflexivity|].
    apply nonempty_length. rewrite length_take; lia.
  - simpl. now split.
Qed.

(** A name that ends in a plain extension splits before that extension. *)
Lemma stem_suffix_of_plain (base x : string) :
  base <> "" -> x <> "" -> PyStr.contains "." x = false ->
  stem_of_name (base ++ String "." x) = base
  /\ suffix_of_name (base ++ String "." x) = String "." x.
Proof.
  intros Hb Hx Hdot. apply nonempty_length in Hb, Hx.
  unfold stem_of_name, suffix_of_name. rewrite rfind_last by assumption.
  assert (E : splits_at (base ++ String "." x) (PyStr.len base) = true).
  { unfold splits_at, PyStr.len. rewrite length_app. simpl String.length.
    apply andb_true_iff; split; apply Z.ltb_lt; lia. }
  rewrite E. unfold PyStr.slice_to, PyStr.slice_from, PyStr.len.
  rewrite Nat2Z.id. now rewrite take_app, drop_app.
Qed.

(** [with_suffix] with a dot and an extension name: it succeeds on a path
    that has a name, keeps the directory, and names the result by the stem
    of the path followed by the extension. *)
Lemma with_suffix_valid (p : PurePath) (x : string) :
  name p <> "" -> extension_name x ->
  exists q,
    with_suffix p (String "." x) = Returned q
    /\ parent q = parent p
    /\ name q = stem p ++ String "." x.
Proof.
  intros Hnm (Hx & Hslash).
  unfold with_suffix.
  assert (E1 : PyStr.contains "/" (String "." x) = false)
    by (simpl; now rewrite Hslash).
  assert (E2 : String.eqb (String "." x) "." = false)
    by (destruct x; [congruence | reflexivity]).
  assert (E3 : PyStr.startswith "." (String "." x) = true)
    by (unfold PyStr.startswith; simpl; now destruct x).
  rewrite E1, E2, E3. simpl orb.
  apply String.eqb_neq in Hnm as Hnm'. rewrite Hnm'.
  destruct (kept_part_is_stem (name p) Hnm) as [Hkept _].
  unfold suffix at 1 2. cbv zeta in Hkept. fold (stem p) in Hkept.
  assert (Hname : (if String.eqb (suffix_of_name (name p)) ""
                   then name p ++ String "." x
                   else PyStr.slice_to
                          (PyStr.len (name p) - PyStr.len (suffix_of_name (name p)))
                          (name p) ++ String "." x)
                  = stem p ++ String "." x)
    by (rewrite <- Hkept; now destruct (String.eqb (suffix_of_name (name p)) "")).
  rewrite Hname. eexists. split; [reflexivity|].
  unfold parent, name at 1; simpl.
  now rewrite removelast_last, last_last.
Qed.

Lemma stem_nonempty (p : PurePath) : name p <> "" -> stem p <> "".
Proof.
  intros Hnm. destruct (kept_part_is_stem (name p) Hnm) as [Hkept Hne].
  cbv zeta in Hkept. unfold stem. now rewrite <- Hkept.
Qed.

(** When the extension name has no dot either, the stem of the result is
    the stem of the path and its suffix is the extension. *)
Lemma with_suffix_plain (p q : PurePath) (x : string) :
  name p <> "" -> x <> "" -> PyStr.contains "." x = false ->
  name q = stem p ++ String "." x ->
  stem q = stem p /\ suffix q = String "." x.
Proof.
  intros Hnm Hx Hdot Hq. unfold stem at 1, suffix. rewrite Hq.
  apply stem_suffix_of_plain; auto using stem_nonempty.
Qed.

(** Every key of the table and every extension name resolve to a dot and
    an extension name, which has a dot only if the base format has. *)
Lemma extension_of_valid (base_format : string) :
  extension_name base_format ->
  exists x,
    extension_of base_format = String "." x
    /\ extension_name x
    /\ (PyStr.contains "." base_format = false -> PyStr.contains "." x = false).
Proof.
  intros Hp. unfold extension_of, FORMAT_EXTENSIONS, table_get.
  repeat match goal with
         | |- context [String.eqb ?k base_format] =>
             destruct (String.eqb k base_format)
         end;
    try (eexists; split; [reflexivity | split; [split; [discriminate|] |]; reflexivity]).
  exists base_format. split; [reflexivity | split; [exact Hp | auto]].
Qed.

End PathFacts.

(** ** Output format and extension (lines 83 to 86) *)

Section FormatResolution.

Lemma is_plus_or_minus_spec (c : ascii) :
  is_plus_or_minus c = true <-> c = "+"%char \/ c = "-"%char.
Proof.
  unfold is_plus_or_minus. rewrite orb_true_iff, !Ascii.eqb_eq. tauto.
Qed.

Lemma table_get_lookup (table : list (string * string)) (key default : string) :
  table_get table key default
  = match table_lookup table key with Some v => v | None => default end.
Proof.
  unfold table_lookup. induction table as [|[k v] table IH]; simpl.
  - reflexivity.
  - destruct (String.eqb k key); [reflexivity | exact IH].
Qed.

Lemma base_format_of_str (s : string) :
  base_format_of (Yaml.Str s) = Returned (prefix_before_first is_plus_or_minus s).
Proof. unfold base_format_of, re_split_plus_minus. now rewrite split_by_hd. Qed.

End FormatResolution.

(** C5.  For every output format string, [re.split(r"[+-]", s)[0]] is the
    prefix of the string before its first [+] or [-], the whole string if it
    has neither; the extension is the value of [FORMAT_EXTENSIONS] for that
    base format when the table has it and a dot followed by the base format
    otherwise; and ["markdown+smart"] resolves to [".md"]. *)
Theorem format_resolution (s : string) :
  let base := prefix_before_first is_plus_or_minus s in
  base_format_of (Yaml.Str s) = Returned base
  /\ PyStr.contains "+" base = false
  /\ PyStr.contains "-" base = false
  /\ (s = base
      \/ exists c rest, s = base ++ String c rest /\ (c = "+"%char \/ c = "-"%char))
  /\ extension_of base
     = match table_lookup FORMAT_EXTENSIONS base with
       | Some ext => ext
       | None => "." ++ base
       end
  /\ (let* b := base_format_of (Yaml.Str "markdown+smart") in Returned (extension_of b))
     = Returned ".md".
Proof.
  intros base. repeat split.
  - apply base_format_of_str.
  - apply prefix_before_first_free. reflexivity.
  - apply prefix_before_first_free. reflexivity.
  - destruct (prefix_before_first_split is_plus_or_minus s) as (rest & Hs & Hrest).
    fold base in Hs. destruct Hrest as [-> | (c & r & -> & Hc)].
    + left. rewrite Hs at 1. clear. induction base; simpl; congruence.
    + right. exists c, r. split; [exact Hs | now apply is_plus_or_minus_spec].
  - apply table_get_lookup.
Qed.

(** ** The output path (lines 83 to 88) *)

(** C6, as amended.  For a source path that has a file name and an output
    format whose base format is not empty and has no slash, the output path
    is computed, lies in the directory of the source, and is named by the
    stem of the source followed by the resolved extension; when the base
    format has no dot either, the output path has the stem of the source and
    the resolved extension as its suffix. *)
Theorem output_path_same_directory_and_stem (input_path s : string) :
  name (Path input_path) <> "" ->
  extension_name (prefix_before_first is_plus_or_minus s) ->
  exists q,
    output_path_of input_path (Yaml.Str s) = Returned q
    /\ parent q = parent (Path input_path)
    /\ name q = stem (Path input_path)
                  ++ extension_of (prefix_before_first is_plus_or_minus s)
    /\ (PyStr.contains "." (prefix_before_first is_plus_or_minus s) = false ->
        stem q = stem (Path input_path)
        /\ suffix q = extension_of (prefix_before_first is_plus_or_minus s)).
Proof.
  intros Hname Hvalid.
  destruct (extension_of_valid _ Hvalid) as (x & Hext & Hx & Hdot).
  destruct (with_suffix_valid (Path input_path) x Hname Hx) as (q & Hq & Hpar & Hnm).
  exists q. unfold output_path_of. rewrite base_format_of_str. simpl result_bind.
  rewrite Hext. repeat split; try assumption.
  - apply (with_suffix_plain (Path input_path) q x); auto. apply Hx.
  - apply (with_suffix_plain (Path input_path) q x); auto. apply Hx.
Qed.

Lemma output_path_same_directory_and_stem_witness :
  exists q,
    output_path_of "/home/u/paper.md" (Yaml.Str "latex+raw_tex") = Returned q
    /\ parent q = parent (Path "/home/u/paper.md")
    /\ name q = stem (Path "/home/u/paper.md")
                  ++ extension_of (prefix_before_first is_plus_or_minus "latex+raw_tex")
    /\ (PyStr.contains "." (prefix_before_first is_plus_or_minus "latex+raw_tex") = false ->
        stem q = stem (Path "/home/u/paper.md")
        /\ suffix q = extension_of (prefix_before_first is_plus_or_minus "latex+raw_tex")).
Proof.
  apply (output_path_same_directory_and_stem "/home/u/paper.md" "latex+raw_tex").
  - vm_compute. discriminate.
  - unfold extension_name. split; [vm_compute; discriminate | reflexivity].
Defined.

(** The two scenarios of C6. *)
Example output_path_paper :
  output_path_of "paper.md" (Yaml.Str "latex+raw_tex") = Returned (Path "paper.tex").
Proof. reflexivity. Qed.

Example output_path_notes :
  output_path_of "notes.md" (Yaml.Str "revealjs") = Returned (Path "notes.html").
Proof. reflexivity. Qed.

(** C6 as stated fails: a base format with a dot gives an output path whose
    stem is not the stem of the source, and a format that starts with [+]
    gives no output path at all. *)
Lemma output_path_counterexample :
  (exists q,
      output_path_of "/home/u/paper.md" (Yaml.Str "custom.lua") = Returned q
      /\ str q = "/home/u/paper.custom.lua"
      /\ stem q = "paper.custom"
      /\ stem (Path "/home/u/paper.md") = "paper"
      /\ stem q <> stem (Path "/home/u/paper.md"))
  /\ output_path_of "/home/u/paper.md" (Yaml.Str "+smart")
     = Raised (mkExn ValueError "Invalid suffix '.'").
Proof.
  split; [|reflexivity].
  eexists. split; [reflexivity|]. repeat split. vm_compute. discriminate.
Qed.

(** ** The menu ([get_file_items]) *)

Section Menu.

Lemma in_list_markdown (sfx : string) :
  PyStr.in_list sfx [".md"; ".markdown"] = true
  <-> sfx = ".md" \/ sfx = ".markdown".
Proof.
  simpl. rewrite orb_false_r, orb_true_iff, !String.eqb_eq. tauto.
Qed.

Lemma get_file_items_single (defaults_files : Dict) (file_info : FileInfo) :
  get_file_items defaults_files [file_info]
  = if PyStr.in_list (PyStr.lower (suffix (file_path_of file_info)))
         [".md"; ".markdown"]
    then match defaults_files with
         | [] => []
         | _ :: _ => [convert_item defaults_files file_info]
         end
    else [].
Proof.
  unfold get_file_items. cbn [List.length Nat.eqb negb].
  now destruct (PyStr.in_list _ _).
Qed.

Lemma get_file_items_not_single (defaults_files : Dict) (files : list FileInfo) :
  List.length files <> 1%nat -> get_file_items defaults_files files = [].
Proof.
  intros H. unfold get_file_items.
  apply Nat.eqb_neq in H. now rewrite H.
Qed.

Lemma get_file_items_markdown (defaults_files : Dict) (file_info : FileInfo) :
  defaults_files <> [] -> is_markdown file_info ->
  get_file_items defaults_files [file_info] = [convert_item defaults_files file_info].
Proof.
  intros Hd Hmd. apply in_list_markdown in Hmd.
  rewrite get_file_items_single, Hmd.
  destruct defaults_files; [contradiction | reflexivity].
Qed.

Lemma get_file_items_other (defaults_files : Dict) (files : list FileInfo) :
  (forall file_info, files = [file_info] -> ~ is_markdown file_info) ->
  get_file_items defaults_files files = [].
Proof.
  intros H. destruct files as [|f [|g files]];
    try (apply get_file_items_not_single; simpl; lia).
  rewrite get_file_items_single.
  destruct (PyStr.in_list _ _) eqn:E; [|reflexivity].
  apply in_list_markdown in E. now destruct (H f eq_refl).
Qed.

End Menu.

(** C7, as amended.  [get_file_items] returns a non-empty list only for a
    selection of exactly one file whose extension, in lower case, is [.md]
    or [.markdown]; for every other selection it returns the empty list. *)
Theorem get_file_items_only_markdown (defaults_files : Dict) (files : list FileInfo) :
  get_file_items defaults_files files <> [] ->
  exists file_info, files = [file_info] /\ is_markdown file_info.
Proof.
  intros Hne. destruct files as [|f [|g files]].
  - now elim Hne.
  - exists f. split; [reflexivity|].
    rewrite get_file_items_single in Hne.
    destruct (PyStr.in_list _ _) eqn:E; [|now elim Hne].
    now apply in_list_markdown.
  - now elim Hne.
Qed.

Lemma get_file_items_only_markdown_witness :
  exists file_info,
    [mkFileInfo "file:///home/u/notes.md"] = [file_info] /\ is_markdown file_info.
Proof.
  apply (get_file_items_only_markdown [("tex", Path "/d/tex.yaml")]).
  vm_compute. discriminate.
Defined.

(** C7 as stated fails: a single selected file with the extension [.MD],
    which is neither [.md] nor [.markdown], yields a menu item. *)
Lemma get_file_items_upper_case_counterexample :
  let file_info := mkFileInfo "file:///home/u/notes.MD" in
  suffix (file_path_of file_info) = ".MD"
  /\ suffix (file_path_of file_info) <> ".md"
  /\ suffix (file_path_of file_info) <> ".markdown"
  /\ get_file_items [("tex", Path "/d/tex.yaml")] [file_info] <> [].
Proof. repeat split; vm_compute; discriminate. Qed.

(** C9.  With no defaults file discovered, [get_file_items] returns the
    empty list for every selection. *)
Theorem get_file_items_no_profiles (files : list FileInfo) :
  get_file_items [] files = [].
Proof.
  destruct files as [|f [|g files]];
    try (apply get_file_items_not_single; simpl; lia).
  rewrite get_file_items_single. now destruct (PyStr.in_list _ _).
Qed.

(** C10.  The test for a Markdown file ignores the case of the extension: a
    single selected file whose extension is [.md] or [.markdown] after
    lower-casing yields the [Convert] item with one sub menu item per
    defaults file, whenever there is a defaults file. *)
Theorem get_file_items_case_insensitive (defaults_files : Dict) (file_info : FileInfo) :
  defaults_files <> [] ->
  PyStr.lower (suffix (file_path_of file_info)) = ".md"
  \/ PyStr.lower (suffix (file_path_of file_info)) = ".markdown" ->
  exists item,
    get_file_items defaults_files [file_info] = [item]
    /\ label_of item = "Convert"
    /\ map label_of (submenu_of item) = map fst defaults_files
    /\ map activate_of (submenu_of item)
       = map (fun entry => Some (file_path_of file_info, snd entry)) defaults_files.
Proof.
  intros Hd Hmd. exists (convert_item defaults_files file_info).
  split; [now apply get_file_items_markdown|].
  split; [reflexivity|]. simpl. rewrite !map_map.
  split; apply map_ext; now intros [k v].
Qed.

Lemma get_file_items_case_insensitive_witness :
  (exists item,
     get_file_items [("tex", Path "/d/tex.yaml")] [mkFileInfo "file:///home/u/notes.MD"]
     = [item]
     /\ label_of item = "Convert"
     /\ map label_of (submenu_of item) = ["tex"]
     /\ map activate_of (submenu_of item)
        = [Some (Path "/home/u/notes.MD", Path "/d/tex.yaml")])
  /\ PyStr.lower (suffix (file_path_of (mkFileInfo "file:///home/u/n.Markdown")))
     = ".markdown".
Proof.
  split; [|reflexivity].
  apply (get_file_items_case_insensitive
           [("tex", Path "/d/tex.yaml")] (mkFileInfo "file:///home/u/notes.MD")).
  - discriminate.
  - left. reflexivity.
Defined.

(** ** Discovery ([_find_defaults_files]) *)

Section Discovery.

Variable w : World.

Lemma output_format_of_map (items : list (Yaml.value * Yaml.value)) :
  output_format_of (Yaml.Map items)
  = Returned (if Yaml.truthy (Yaml.dict_get "to" items)
              then Yaml.dict_get "to" items
              else Yaml.dict_get "write" items).
Proof.
  unfold output_format_of. simpl.
  now destruct (Yaml.truthy (Yaml.dict_get "to" items)).
Qed.

Lemma output_format_of_not_map (config : Yaml.value) :
  (forall items, config <> Yaml.Map items) ->
  exists e, output_format_of config = Raised e /\ cls e = AttributeError.
Proof.
  intros H. destruct config; try (eexists; split; reflexivity).
  now destruct (H items).
Qed.

Lemma dict_get_absent (key : string) (items : list (Yaml.value * Yaml.value)) :
  Yaml.has_key key items = false -> Yaml.dict_get key items = Yaml.Null.
Proof.
  induction items as [|[k v] items IH]; simpl; [reflexivity|].
  intros H. apply orb_false_iff in H as [Hk Hrest]. rewrite Hk. now apply IH.
Qed.

Lemma try_defaults_file_map (filepath : PurePath) (d : Dict)
    (items : list (Yaml.value * Yaml.value)) :
  safe_load w (str filepath) = Returned (Yaml.Map items) ->
  try_defaults_file w filepath d
  = Returned (if Yaml.truthy (Yaml.dict_get "to" items)
                 || Yaml.truthy (Yaml.dict_get "write" items)
              then dict_set (stem filepath) filepath d
              else d).
Proof.
  intros Hload. unfold try_defaults_file. rewrite Hload. simpl result_bind.
  rewrite output_format_of_map. simpl result_bind.
  destruct (Yaml.truthy (Yaml.dict_get "to" items)) eqn:Hto; simpl.
  - now rewrite Hto.
  - now destruct (Yaml.truthy (Yaml.dict_get "write" items)).
Qed.

Lemma try_defaults_file_inv (filepath : PurePath) (d d' : Dict) :
  try_defaults_file w filepath d = Returned d' ->
  d' = d \/ d' = dict_set (stem filepath) filepath d.
Proof.
  unfold try_defaults_file.
  destruct (safe_load w (str filepath)) as [config|e]; simpl; [|discriminate].
  destruct (output_format_of config) as [fmt|e]; simpl; [|discriminate].
  destruct (Yaml.truthy fmt); intros [= <-]; auto.
Qed.

Lemma dict_set_keys (k : string) (v : PurePath) (d : Dict) (k' : string) :
  In k' (map fst (dict_set k v d)) <-> k' = k \/ In k' (map fst d).
Proof.
  induction d as [|[k0 v0] d IH]; simpl.
  - intuition.
  - destruct (String.eqb k0 k) eqn:E; simpl.
    + apply String.eqb_eq in E. subst. intuition.
    + rewrite IH. intuition.
Qed.

Lemma dict_set_NoDup (k : string) (v : PurePath) (d : Dict) :
  NoDup (map fst d) -> NoDup (map fst (dict_set k v d)).
Proof.
  induction d as [|[k0 v0] d IH]; simpl; intros H.
  - constructor; [intros [] | constructor].
  - inversion H as [|? ? Hnotin Hnodup]; subst.
    destruct (String.eqb k0 k) eqn:E; simpl.
    + apply String.eqb_eq in E. subst. now constructor.
    + constructor; [|now apply IH].
      rewrite dict_set_keys. intros [-> | Hin]; [|contradiction].
      now rewrite String.eqb_refl in E.
Qed.

Lemma count_key_NoDup (k : string) (d : Dict) :
  NoDup (map fst d) -> In k (map fst d) -> count_key k d = 1%nat.
Proof.
  unfold count_key. induction d as [|[k0 v0] d IH]; simpl; intros Hnd Hin.
  - contradiction.
  - inversion Hnd as [|? ? Hnotin Hnodup]; subst.
    destruct (String.eqb k0 k) eqn:E; simpl.
    + apply String.eqb_eq in E. subst. f_equal.
      clear IH Hin Hnd Hnodup. induction d as [|[k1 v1] d IH]; simpl; [reflexivity|].
      simpl in Hnotin. destruct (String.eqb k1 k) eqn:E1.
      * apply String.eqb_eq in E1. tauto.
      * apply IH. tauto.
    + apply IH; [assumption|]. destruct Hin as [-> | Hin]; [|assumption].
      now rewrite String.eqb_refl in E.
Qed.

(** The loop keeps the keys distinct and never removes one. *)
Lemma scan_defaults_invariant (files : list PurePath) (d d' : Dict) :
  scan_defaults w files d = Returned d' ->
  NoDup (map fst d) ->
  NoDup (map fst d') /\ (forall k, In k (map fst d) -> In k (map fst d')).
Proof.
  revert d; induction files as [|f files IH]; simpl; intros d Hscan Hnd.
  - injection Hscan as <-. auto.
  - destruct (try_defaults_file w f d) as [d1|e] eqn:Htry.
    + destruct (try_defaults_file_inv _ _ _ Htry) as [-> | ->].
      * now apply IH.
      * destruct (IH _ Hscan (dict_set_NoDup _ _ _ Hnd)) as [H1 H2].
        split; [assumption|]. intros k Hk. apply H2, dict_set_keys. now right.
    + destruct (caught_in_discovery e); [now apply IH | discriminate].
Qed.

(** A file that loads to a dict with a true [to] or [write] has its stem
    among the keys when the loop ends. *)
Lemma scan_defaults_includes (files : list PurePath) (d d' : Dict)
    (filepath : PurePath) (items : list (Yaml.value * Yaml.value)) :
  scan_defaults w files d = Returned d' ->
  NoDup (map fst d) ->
  In filepath files ->
  safe_load w (str filepath) = Returned (Yaml.Map items) ->
  Yaml.truthy (Yaml.dict_get "to" items) || Yaml.truthy (Yaml.dict_get "write" items)
  = true ->
  In (stem filepath) (map fst d').
Proof.
  revert d; induction files as [|f files IH]; simpl; intros d Hscan Hnd Hin Hload Htruth.
  - contradiction.
  - destruct Hin as [-> | Hin].
    + rewrite (try_defaults_file_map _ d _ Hload), Htruth in Hscan.
      destruct (scan_defaults_invariant _ _ _ Hscan (dict_set_NoDup _ _ _ Hnd))
        as [_ Hkeep].
      apply Hkeep, dict_set_keys. now left.
    + destruct (try_defaults_file w f d) as [d1|e] eqn:Htry.
      * destruct (try_defaults_file_inv _ _ _ Htry) as [-> | ->].
        -- now apply (IH d).
        -- apply (IH _ Hscan); auto using dict_set_NoDup.
      * destruct (caught_in_discovery e); [now apply (IH d) | discriminate].
Qed.

(** The loop ends normally when every file raises a caught exception or
    loads to a dict. *)
Lemma scan_defaults_returns (files : list PurePath) (d : Dict) :
  (forall f, In f files ->
             (exists items, safe_load w (str f) = Returned (Yaml.Map items))
             \/ (exists e, safe_load w (str f) = Raised e
                           /\ caught_in_discovery e = true)) ->
  exists d', scan_defaults w files d = Returned d'.
Proof.
  revert d; induction files as [|f files IH]; simpl; intros d H.
  - now exists d.
  - destruct (H f (or_introl eq_refl)) as [(items & Hload) | (e & Hload & He)].
    + rewrite (try_defaults_file_map _ d _ Hload). apply IH. auto.
    + unfold try_defaults_file. rewrite Hload. simpl. rewrite He. apply IH. auto.
Qed.

(** One file that loads to anything but a dict makes the loop raise. *)
Lemma scan_defaults_raises (files : list PurePath) (d : Dict)
    (filepath : PurePath) (config : Yaml.value) :
  In filepath files ->
  safe_load w (str filepath) = Returned config ->
  (forall items, config <> Yaml.Map items) ->
  exists e, scan_defaults w files d = Raised e /\ caught_in_discovery e = false.
Proof.
  intros Hin Hload Hnot. revert d.
  induction files as [|f files IH]; simpl; intros d; [contradiction|].
  destruct (try_defaults_file w f d) as [d1|e] eqn:Htry.
  - destruct Hin as [-> | Hin]; [|now apply IH].
    unfold try_defaults_file in Htry. rewrite Hload in Htry. simpl in Htry.
    destruct (output_format_of_not_map _ Hnot) as (e & He & _).
    rewrite He in Htry. discriminate.
  - destruct (caught_in_discovery e) eqn:He.
    + destruct Hin as [-> | Hin]; [|now apply IH].
      unfold try_defaults_file in Htry. rewrite Hload in Htry. simpl in Htry.
      destruct (output_format_of_not_map _ Hnot) as (e' & He' & Hcls).
      rewrite He' in Htry. simpl in Htry. injection Htry as <-.
      unfold caught_in_discovery in He. rewrite Hcls in He. discriminate.
    + now exists e.
Qed.

End Discovery.

Lemma declares_truthy (items : list (Yaml.value * Yaml.value)) :
  declares_output_format items ->
  Yaml.truthy (Yaml.dict_get "to" items) || Yaml.truthy (Yaml.dict_get "write" items)
  = true.
Proof.
  intros [(s & Hs & Hget) | (s & Hs & Hget)]; rewrite Hget; simpl;
    apply String.eqb_neq in Hs; rewrite Hs; simpl; auto using orb_true_r.
Qed.

Section DiscoveryCall.

Variables (w : World) (data_dir defaults_dir : PurePath).
Hypothesis Hdata : _get_pandoc_data_dir w = Returned (Some data_dir).
Hypothesis Hdefaults : defaults_dir = joinpath data_dir "defaults".
Hypothesis Hdir : is_dir w (str defaults_dir) = true.

Lemma find_defaults_files_scan :
  _find_defaults_files w
  = scan_defaults w (glob_yaml (scandir w (str defaults_dir)) defaults_dir) [].
Proof.
  unfold _find_defaults_files. rewrite Hdata. simpl result_bind.
  rewrite <- Hdefaults, Hdir. reflexivity.
Qed.

Lemma glob_yaml_In (entry : string) :
  In entry (scandir w (str defaults_dir)) ->
  PyStr.endswith ".yaml" entry = true ->
  In (make_child_relpath defaults_dir entry)
     (glob_yaml (scandir w (str defaults_dir)) defaults_dir).
Proof.
  intros Hin Hyaml. unfold glob_yaml. apply in_map, filter_In. now split.
Qed.

(** Discovery raises as soon as one [*.yaml] entry loads to a value that
    is not a dict (an empty document, a list, a scalar). *)
Lemma find_defaults_files_raises (entry : string) (config : Yaml.value) :
  In entry (scandir w (str defaults_dir)) ->
  PyStr.endswith ".yaml" entry = true ->
  safe_load w (str (make_child_relpath defaults_dir entry)) = Returned config ->
  (forall items, config <> Yaml.Map items) ->
  exists e, _find_defaults_files w = Raised e /\ caught_in_discovery e = false.
Proof.
  intros Hin Hyaml Hload Hnot. rewrite find_defaults_files_scan.
  eapply scan_defaults_raises; eauto using glob_yaml_In.
Qed.

(** Discovery returns when every [*.yaml] entry loads to a dict or fails
    with a [YAMLError] or an [IOError]. *)
Lemma find_defaults_files_returns :
  (forall entry,
      In entry (scandir w (str defaults_dir)) ->
      PyStr.endswith ".yaml" entry = true ->
      (exists items,
          safe_load w (str (make_child_relpath defaults_dir entry))
          = Returned (Yaml.Map items))
      \/ (exists e,
             safe_load w (str (make_child_relpath defaults_dir entry)) = Raised e
             /\ caught_in_discovery e = true)) ->
  exists d, _find_defaults_files w = Returned d.
Proof.
  intros H. rewrite find_defaults_files_scan. apply scan_defaults_returns.
  intros f Hf. unfold glob_yaml in Hf. apply in_map_iff in Hf as (entry & <- & Hentry).
  apply filter_In in Hentry as [Hin Hyaml]. now apply H.
Qed.

(** What a returned mapping holds for an entry that declares a format. *)
Lemma find_defaults_files_includes (entry : string)
    (items : list (Yaml.value * Yaml.value)) (d : Dict) :
  In entry (scandir w (str defaults_dir)) ->
  PyStr.endswith ".yaml" entry = true ->
  safe_load w (str (make_child_relpath defaults_dir entry)) = Returned (Yaml.Map items) ->
  declares_output_format items ->
  _find_defaults_files w = Returned d ->
  count_key (stem (make_child_relpath defaults_dir entry)) d = 1%nat.
Proof.
  intros Hin Hyaml Hload Hdecl Hfind.
  rewrite find_defaults_files_scan in Hfind.
  assert (Hnd : NoDup (map fst (@nil (string * PurePath)))) by constructor.
  apply count_key_NoDup.
  - now destruct (scan_defaults_invariant w _ _ _ Hfind Hnd).
  - eapply scan_defaults_includes; eauto using glob_yaml_In, declares_truthy.
Qed.

(** With no entry that makes discovery raise, the mapping is returned and
    holds the entry. *)
Lemma find_defaults_files_returns_including (entry : string)
    (items : list (Yaml.value * Yaml.value)) :
  (forall entry',
      In entry' (scandir w (str defaults_dir)) ->
      PyStr.endswith ".yaml" entry' = true ->
      (exists items',
          safe_load w (str (make_child_relpath defaults_dir entry'))
          = Returned (Yaml.Map items'))
      \/ (exists e,
             safe_load w (str (make_child_relpath defaults_dir entry')) = Raised e
             /\ caught_in_discovery e = true)) ->
  In entry (scandir w (str defaults_dir)) ->
  PyStr.endswith ".yaml" entry = true ->
  safe_load w (str (make_child_relpath defaults_dir entry)) = Returned (Yaml.Map items) ->
  declares_output_format items ->
  exists d,
    _find_defaults_files w = Returned d
    /\ count_key (stem (make_child_relpath defaults_dir entry)) d = 1%nat.
Proof.
  intros Hall Hin Hyaml Hload Hdecl.
  destruct (find_defaults_files_returns Hall) as (d & Hd).
  exists d. split; [exact Hd|]. now apply (find_defaults_files_includes entry items).
Qed.

End DiscoveryCall.

(** C2.  Discovery is to return a mapping whatever the documents are.  The
    code does not: as soon as one [*.yaml] entry of the defaults directory
    loads to a value that is not a dict (an empty document, a list, a
    scalar), [config.get] raises an [AttributeError], which the handler for
    [YAMLError] and [IOError] does not catch, and [_find_defaults_files]
    raises instead of returning. *)
Theorem discovery_raises_on_non_mapping (w : World) (data_dir defaults_dir : PurePath)
    (entry : string) (config : Yaml.value) :
  _get_pandoc_data_dir w = Returned (Some data_dir) ->
  defaults_dir = joinpath data_dir "defaults" ->
  is_dir w (str defaults_dir) = true ->
  In entry (scandir w (str defaults_dir)) ->
  PyStr.endswith ".yaml" entry = true ->
  safe_load w (str (make_child_relpath defaults_dir entry)) = Returned config ->
  (forall items, config <> Yaml.Map items) ->
  exists e, _find_defaults_files w = Raised e /\ caught_in_discovery e = false.
Proof.
  intros Hdata Hdefaults Hdir.
  now apply (find_defaults_files_raises w data_dir defaults_dir).
Qed.

Lemma discovery_raises_on_non_mapping_witness :
  exists e,
    _find_defaults_files
      (example_world ["html.yaml"; "empty.yaml"] example_docs (Exited 0))
    = Raised e
    /\ caught_in_discovery e = false.
Proof.
  apply (discovery_raises_on_non_mapping
           (example_world ["html.yaml"; "empty.yaml"] example_docs (Exited 0))
           (Path "/home/u/.pandoc") (Path "/home/u/.pandoc/defaults")
           "empty.yaml" Yaml.Null).
  - reflexivity.
  - reflexivity.
  - reflexivity.
  - simpl. auto.
  - reflexivity.
  - reflexivity.
  - discriminate.
Defined.

(** The exception that leaves discovery for an empty document. *)
Example discovery_raises_on_empty_document :
  _find_defaults_files
    (example_world ["html.yaml"; "empty.yaml"] example_docs (Exited 0))
  = Raised (mkExn AttributeError "object has no attribute 'get'").
Proof. reflexivity. Qed.

(** Without the empty document the same directory is discovered. *)
Example discovery_of_html :
  _find_defaults_files (example_world ["html.yaml"; "notes.txt"] example_docs (Exited 0))
  = Returned [("html", Path "/home/u/.pandoc/defaults/html.yaml")].
Proof. reflexivity. Qed.

(** C3.  When discovery returns a mapping, every [*.yaml] entry of the
    defaults directory that loads to a dict declaring an output format under
    [to] or [write] has exactly one entry in the mapping, under the stem of
    its file name. *)
Theorem discovery_includes_profile (w : World) (data_dir defaults_dir : PurePath)
    (entry : string) (items : list (Yaml.value * Yaml.value)) (d : Dict) :
  _get_pandoc_data_dir w = Returned (Some data_dir) ->
  defaults_dir = joinpath data_dir "defaults" ->
  is_dir w (str defaults_dir) = true ->
  In entry (scandir w (str defaults_dir)) ->
  PyStr.endswith ".yaml" entry = true ->
  safe_load w (str (make_child_relpath defaults_dir entry)) = Returned (Yaml.Map items) ->
  declares_output_format items ->
  _find_defaults_files w = Returned d ->
  count_key (stem (make_child_relpath defaults_dir entry)) d = 1%nat.
Proof.
  intros Hdata Hdefaults Hdir.
  now apply (find_defaults_files_includes w data_dir defaults_dir).
Qed.

Lemma discovery_includes_profile_witness :
  count_key
    (stem (make_child_relpath (Path "/home/u/.pandoc/defaults") "html.yaml"))
    [("html", Path "/home/u/.pandoc/defaults/html.yaml");
     ("blank", Path "/home/u/.pandoc/defaults/blank.yaml")]
  = 1%nat.
Proof.
  apply (discovery_includes_profile
           (example_world ["html.yaml"; "filter.yaml"; "gone.yaml"; "blank.yaml"]
              example_docs (Exited 0))
           (Path "/home/u/.pandoc") (Path "/home/u/.pandoc/defaults") "html.yaml"
           [(Yaml.Str "to", Yaml.Str "html")]).
  - reflexivity.
  - reflexivity.
  - reflexivity.
  - simpl. auto.
  - reflexivity.
  - reflexivity.
  - left. exists "html". split; [discriminate | reflexivity].
  - reflexivity.
Defined.

(** C4, as amended.  For a document that loads to a dict, the output format
    is the value of [to] when that value is true (a non-empty string, say),
    and the field is then present; otherwise it is the value of [write];
    and discovery skips the document exactly when neither value is true. *)
Theorem output_format_selection (w : World) (filepath : PurePath) (d : Dict)
    (items : list (Yaml.value * Yaml.value)) :
  safe_load w (str filepath) = Returned (Yaml.Map items) ->
  let to := Yaml.dict_get "to" items in
  let write := Yaml.dict_get "write" items in
  output_format_of (Yaml.Map items) = Returned (if Yaml.truthy to then to else write)
  /\ implb (Yaml.truthy to) (Yaml.has_key "to" items) = true
  /\ implb (Yaml.truthy write) (Yaml.has_key "write" items) = true
  /\ try_defaults_file w filepath d
     = Returned (if Yaml.truthy to || Yaml.truthy write
                 then dict_set (stem filepath) filepath d
                 else d).
Proof.
  intros Hload to write.
  assert (Himpl : forall key,
             implb (Yaml.truthy (Yaml.dict_get key items)) (Yaml.has_key key items) = true).
  { intros key. destruct (Yaml.has_key key items) eqn:E.
    - apply implb_true_r.
    - now rewrite dict_get_absent. }
  split; [apply output_format_of_map|].
  split; [apply Himpl|]. split; [apply Himpl|].
  now apply try_defaults_file_map.
Qed.

Lemma output_format_selection_witness :
  let items := [(Yaml.Str "to", Yaml.Str "html")] in
  let to := Yaml.dict_get "to" items in
  let write := Yaml.dict_get "write" items in
  output_format_of (Yaml.Map items) = Returned (if Yaml.truthy to then to else write)
  /\ implb (Yaml.truthy to) (Yaml.has_key "to" items) = true
  /\ implb (Yaml.truthy write) (Yaml.has_key "write" items) = true
  /\ try_defaults_file (example_world ["html.yaml"] example_docs (Exited 0))
       (Path "/home/u/.pandoc/defaults/html.yaml") []
     = Returned [("html", Path "/home/u/.pandoc/defaults/html.yaml")].
Proof.
  apply (output_format_selection
           (example_world ["html.yaml"] example_docs (Exited 0))
           (Path "/home/u/.pandoc/defaults/html.yaml") []
           [(Yaml.Str "to", Yaml.Str "html")]).
  reflexivity.
Defined.

(** C4 as stated fails: in the document [blank.yaml] the field [to] is
    present, with no value, and the format is taken from [write]; and a
    document whose only field is an empty [to] is skipped although the
    field is present. *)
Lemma output_format_presence_counterexample :
  let blank := [(Yaml.Str "to", Yaml.Null); (Yaml.Str "write", Yaml.Str "html")] in
  let empty_to := [(Yaml.Str "to", Yaml.Str "")] in
  (Yaml.has_key "to" blank = true
   /\ output_format_of (Yaml.Map blank) = Returned (Yaml.Str "html")
   /\ Yaml.dict_get "write" blank = Yaml.Str "html")
  /\ (Yaml.has_key "to" empty_to = true
      /\ forall w filepath d,
           safe_load w (str filepath) = Returned (Yaml.Map empty_to) ->
           try_defaults_file w filepath d = Returned d).
Proof.
  repeat split. intros w filepath d Hload.
  now rewrite (try_defaults_file_map w filepath d _ Hload).
Qed.

(** ** The child process ([_run_conversion]) *)

Section Child.

Variables (w : World) (input_path defaults_file : string).

Lemma bind_lift_Returned {A B : Type} (a : A) (k : A -> M B) (fr : frame) :
  bind (lift (Returned a)) k fr = k a fr.
Proof. reflexivity. Qed.

Lemma bind_lift_Raised {A B : Type} (e : exn) (k : A -> M B) (fr : frame) :
  bind (@lift A (Raised e)) k fr = (Raise e, fr).
Proof. reflexivity. Qed.

Lemma bind_set_input_path_obj {B : Type} (p : PurePath) (k : unit -> M B)
    (fr : frame) :
  bind (set_input_path_obj p) k fr = k tt (mkFrame (Some p) (calls fr)).
Proof. reflexivity. Qed.

Lemma bind_get_input_path_obj {B : Type} (p : PurePath) (k : PurePath -> M B)
    (started : list call) :
  bind get_input_path_obj k (mkFrame (Some p) started)
  = k p (mkFrame (Some p) started).
Proof. reflexivity. Qed.

Lemma bind_subprocess_run_done {B : Type} (args : list string)
    (dir : option string) (check : bool) (status : Z) (k : unit -> M B)
    (fr : frame) :
  run_process w args dir = Exited status ->
  check && negb (status =? 0)%Z = false ->
  bind (subprocess_run w args dir check) k fr
  = k tt (mkFrame (input_path_obj fr) (calls fr ++ [mkCall args dir])%list).
Proof. intros Hrun Hcheck. unfold bind, subprocess_run. now rewrite Hrun, Hcheck. Qed.

Lemma bind_subprocess_run_failed {B : Type} (args : list string)
    (dir : option string) (status : Z) (k : unit -> M B) (fr : frame) :
  run_process w args dir = Exited status ->
  status <> 0%Z ->
  bind (subprocess_run w args dir true) k fr
  = (Raise (called_process_error status args),
     mkFrame (input_path_obj fr) (calls fr ++ [mkCall args dir])%list).
Proof.
  intros Hrun Hstatus. apply Z.eqb_neq in Hstatus.
  unfold bind, subprocess_run. now rewrite Hrun, Hstatus.
Qed.

Lemma subprocess_run_unchecked (args : list string) (dir : option string)
    (status : Z) (fr : frame) :
  run_process w args dir = Exited status ->
  subprocess_run w args dir false fr
  = (Normal tt, mkFrame (input_path_obj fr) (calls fr ++ [mkCall args dir])%list).
Proof. intros Hrun. unfold subprocess_run. now rewrite Hrun. Qed.

(** The call and its processes, from how the [try] block ends. *)
Lemma run_conversion_unfold :
  _run_conversion w input_path defaults_file
  = let (c, fr) :=
      match _run_conversion_try w input_path defaults_file empty_frame with
      | (Raise e, fr') => _run_conversion_except w e fr'
      | r => r
      end in
    (end_call c, calls fr).
Proof. reflexivity. Qed.

(** The handler in a frame where [input_path_obj] is unbound. *)
Lemma except_unbound (e : exn) (started : list call) :
  _run_conversion_except w e (mkFrame None started)
  = (Raise unbound_input_path_obj, mkFrame None started).
Proof. reflexivity. Qed.

(** An exception of the [try] block before line 87 leaves
    [input_path_obj] unbound: the handler raises in its turn. *)
Lemma try_raises_unbound (e : exn) :
  _run_conversion_try w input_path defaults_file empty_frame
  = (Raise e, empty_frame) ->
  _run_conversion w input_path defaults_file
  = (Raised unbound_input_path_obj, []).
Proof. intros H. rewrite run_conversion_unfold, H. reflexivity. Qed.

Lemma config_failure_escapes (config : Yaml.value) (e : exn) :
  safe_load w defaults_file = Returned config ->
  output_format_of config = Raised e ->
  _run_conversion w input_path defaults_file
  = (Raised unbound_input_path_obj, []).
Proof.
  intros Hload Hfmt. apply (try_raises_unbound e).
  unfold _run_conversion_try.
  now rewrite Hload, bind_lift_Returned, Hfmt, bind_lift_Raised.
Qed.

Lemma format_failure_escapes (config output_format : Yaml.value) (e : exn) :
  safe_load w defaults_file = Returned config ->
  output_format_of config = Returned output_format ->
  Yaml.truthy output_format = true ->
  base_format_of output_format = Raised e ->
  _run_conversion w input_path defaults_file
  = (Raised unbound_input_path_obj, []).
Proof.
  intros Hload Hfmt Htruth Hbase. apply (try_raises_unbound e).
  unfold _run_conversion_try.
  rewrite Hload, bind_lift_Returned, Hfmt, bind_lift_Returned, Htruth.
  cbn [negb]. now rewrite Hbase, bind_lift_Raised.
Qed.

(** From line 87 on the handler does what it is meant to do.  The pandoc
    call is made with the output path of lines 83 to 88; when pandoc
    exits with a non-zero status, the error notification names the source
    file and carries the text of the exception. *)
Lemma pandoc_failure_notified (config output_format : Yaml.value)
    (output_path : PurePath) (status : Z) :
  safe_load w defaults_file = Returned config ->
  output_format_of config = Returned output_format ->
  Yaml.truthy output_format = true ->
  output_path_of input_path output_format = Returned output_path ->
  let pandoc := ["pandoc"; "-d"; defaults_file; input_path; "-o"; str output_path] in
  let dir := Some (str (parent (Path input_path))) in
  let notify := ["notify-send"; "Pandoc Conversion Error";
                 "Error converting " ++ name (Path input_path) ++ ": "
                   ++ message (called_process_error status pandoc)] in
  run_process w pandoc dir = Exited status ->
  status <> 0%Z ->
  (exists status', run_process w notify None = Exited status') ->
  _run_conversion w input_path defaults_file
  = (Returned tt, [mkCall pandoc dir; mkCall notify None]).
Proof.
  intros Hload Hfmt Htruth Hout pandoc dir notify Hrun Hstatus (status' & Hnotify).
  unfold output_path_of in Hout.
  destruct (base_format_of output_format) as [base|] eqn:Hbase; [|discriminate].
  simpl in Hout.
  rewrite run_conversion_unfold.
  unfold _run_conversion_try.
  rewrite Hload, bind_lift_Returned, Hfmt, bind_lift_Returned, Htruth.
  cbn [negb]. rewrite Hbase, bind_lift_Returned.
  rewrite bind_set_input_path_obj, bind_get_input_path_obj, Hout, bind_lift_Returned.
  fold pandoc dir. rewrite (bind_subprocess_run_failed _ _ status) by assumption.
  unfold _run_conversion_except. cbn [input_path_obj calls empty_frame].
  rewrite bind_get_input_path_obj. fold notify.
  now rewrite (subprocess_run_unchecked _ _ status').
Qed.

(** A conversion that works: pandoc, then the notification. *)
Lemma conversion_success (config output_format : Yaml.value)
    (output_path : PurePath) :
  safe_load w defaults_file = Returned config ->
  output_format_of config = Returned output_format ->
  Yaml.truthy output_format = true ->
  output_path_of input_path output_format = Returned output_path ->
  let pandoc := ["pandoc"; "-d"; defaults_file; input_path; "-o"; str output_path] in
  let dir := Some (str (parent (Path input_path))) in
  let notify := ["notify-send"; "Pandoc Conversion Complete";
                 "Converted " ++ name (Path input_path) ++ " to " ++ name output_path] in
  run_process w pandoc dir = Exited 0 ->
  (exists status', run_process w notify None = Exited status') ->
  _run_conversion w input_path defaults_file
  = (Returned tt, [mkCall pandoc dir; mkCall notify None]).
Proof.
  intros Hload Hfmt Htruth Hout pandoc dir notify Hrun (status' & Hnotify).
  unfold output_path_of in Hout.
  destruct (base_format_of output_format) as [base|] eqn:Hbase; [|discriminate].
  simpl in Hout.
  rewrite run_conversion_unfold.
  unfold _run_conversion_try.
  rewrite Hload, bind_lift_Returned, Hfmt, bind_lift_Returned, Htruth.
  cbn [negb]. rewrite Hbase, bind_lift_Returned.
  rewrite bind_set_input_path_obj, bind_get_input_path_obj, Hout, bind_lift_Returned.
  fold pandoc dir. rewrite (bind_subprocess_run_done _ _ _ 0%Z) by easy.
  cbn [input_path_obj calls empty_frame].
  rewrite bind_get_input_path_obj. fold notify.
  now rewrite (subprocess_run_unchecked _ _ status').
Qed.

End Child.

(** C1.  Every failure of steps 2 to 6 is to end in an error notification,
    with no exception leaving the child.  The code does not do so for a
    failure to open or parse the defaults file: the handler reads
    [input_path_obj], which is assigned only on line 87, so it raises an
    [UnboundLocalError]; no notification is sent and the exception leaves
    [_run_conversion]. *)
Theorem load_failure_escapes (w : World) (input_path defaults_file : string) (e : exn) :
  safe_load w defaults_file = Raised e ->
  _run_conversion w input_path defaults_file = (Raised unbound_input_path_obj, []).
Proof.
  intros Hload. apply (try_raises_unbound w input_path defaults_file e).
  unfold _run_conversion_try. now rewrite Hload, bind_lift_Raised.
Qed.

Lemma load_failure_escapes_witness :
  _run_conversion (example_world ["html.yaml"] example_docs (Exited 0))
    "/home/u/notes.md" "/home/u/.pandoc/defaults/gone.yaml"
  = (Raised unbound_input_path_obj, []).
Proof.
  apply (load_failure_escapes _ _ _ no_such_file). reflexivity.
Defined.

(** C8.  When the document read again in the child is a dict with no true
    [to] or [write], [_run_conversion] returns and has started no process:
    neither the converter nor a notification. *)
Theorem no_format_aborts_silently (w : World) (input_path defaults_file : string)
    (items : list (Yaml.value * Yaml.value)) :
  safe_load w defaults_file = Returned (Yaml.Map items) ->
  Yaml.truthy (Yaml.dict_get "to" items) = false ->
  Yaml.truthy (Yaml.dict_get "write" items) = false ->
  _run_conversion w input_path defaults_file = (Returned tt, []).
Proof.
  intros Hload Hto Hwrite. rewrite run_conversion_unfold.
  unfold _run_conversion_try.
  rewrite Hload, bind_lift_Returned, output_format_of_map, bind_lift_Returned.
  now rewrite Hto, Hwrite.
Qed.

Lemma no_format_aborts_silently_witness :
  _run_conversion (example_world ["filter.yaml"] example_docs (Exited 0))
    "/home/u/notes.md" "/home/u/.pandoc/defaults/filter.yaml"
  = (Returned tt, []).
Proof.
  apply (no_format_aborts_silently _ _ _
           [(Yaml.Str "filters", Yaml.Seq [Yaml.Str "pandoc-crossref"])]);
    reflexivity.
Defined.

(** The scenario of a converter that exits with a non-zero status. *)
Example pandoc_exit_status_3 :
  _run_conversion (example_world ["html.yaml"] example_docs (Exited 3))
    "/home/u/notes.md" "/home/u/.pandoc/defaults/html.yaml"
  = (Returned tt,
     [mkCall ["pandoc"; "-d"; "/home/u/.pandoc/defaults/html.yaml"; "/home/u/notes.md";
              "-o"; "/home/u/notes.html"] (Some "/home/u");
      mkCall ["notify-send"; "Pandoc Conversion Error";
              "Error converting notes.md: Command '['pandoc', '-d', '/home/u/.pandoc/defaults/html.yaml', '/home/u/notes.md', '-o', '/home/u/notes.html']' returned non-zero exit status 3."]
        None]).
Proof. reflexivity. Qed.

(** An empty defaults file in the child: the [AttributeError] of
    [config.get] is caught and the handler raises. *)
Example empty_document_in_child :
  _run_conversion (example_world ["empty.yaml"] example_docs (Exited 0))
    "/home/u/notes.md" "/home/u/.pandoc/defaults/empty.yaml"
  = (Raised unbound_input_path_obj, []).
Proof. reflexivity. Qed.


(** * Further properties *)

(** ** More on discovery *)

Section DiscoveryMore.

Variable w : World.

Lemma try_defaults_file_records (filepath : PurePath) (d d' : Dict) :
  try_defaults_file w filepath d = Returned d' ->
  d' = d \/ (d' = dict_set (stem filepath) filepath d /\ records_profile w filepath).
Proof.
  unfold try_defaults_file, records_profile.
  destruct (safe_load w (str filepath)) as [config|e] eqn:Hload; simpl; [|discriminate].
  destruct config; try discriminate.
  rewrite output_format_of_map. simpl.
  destruct (Yaml.truthy (Yaml.dict_get "to" items)) eqn:Hto.
  - rewrite Hto. intros [= <-]. right. split; [reflexivity|]. exists items. now rewrite Hto.
  - destruct (Yaml.truthy (Yaml.dict_get "write" items)) eqn:Hwrite; intros [= <-].
    + right. split; [reflexivity|]. exists items. now rewrite Hto, Hwrite.
    + now left.
Qed.

Lemma try_defaults_file_recorded (filepath : PurePath) (d : Dict) :
  records_profile w filepath ->
  try_defaults_file w filepath d = Returned (dict_set (stem filepath) filepath d).
Proof.
  intros (items & Hload & Htruth).
  now rewrite (try_defaults_file_map w filepath d items Hload), Htruth.
Qed.

Lemma dict_set_In (k : string) (v : PurePath) (d : Dict) : In (k, v) (dict_set k v d).
Proof.
  induction d as [|[k0 v0] d IH]; simpl; [now left|].
  destruct (String.eqb k0 k); simpl; auto.
Qed.

Lemma dict_set_In_inv (k k' : string) (v v' : PurePath) (d : Dict) :
  In (k', v') (dict_set k v d) -> (k', v') = (k, v) \/ In (k', v') d.
Proof.
  induction d as [|[k0 v0] d IH]; simpl.
  - intros [H | []]. now left.
  - destruct (String.eqb k0 k); simpl; intros [H | H]; auto.
    destruct (IH H); auto.
Qed.

Lemma dict_set_other (k k' : string) (v v' : PurePath) (d : Dict) :
  k' <> k -> In (k', v') d -> In (k', v') (dict_set k v d).
Proof.
  intros Hk. induction d as [|[k0 v0] d IH]; simpl; [tauto|].
  destruct (String.eqb k0 k) eqn:E; simpl.
  - apply String.eqb_eq in E. subst k0. intros [[= -> ->] | H]; [contradiction | auto].
  - intros [H | H]; auto.
Qed.

Lemma scan_defaults_app (files files' : list PurePath) (d : Dict) :
  scan_defaults w (files ++ files') d
  = match scan_defaults w files d with
    | Returned d1 => scan_defaults w files' d1
    | Raised e => Raised e
    end.
Proof.
  revert d; induction files as [|f files IH]; simpl; intros d; [reflexivity|].
  destruct (try_defaults_file w f d) as [d1|e]; [apply IH|].
  destruct (caught_in_discovery e); [apply IH | reflexivity].
Qed.

(** Every entry the loop adds is a recorded file under its stem. *)
Lemma scan_defaults_sound (files : list PurePath) (d d' : Dict) (k : string)
    (p : PurePath) :
  scan_defaults w files d = Returned d' ->
  In (k, p) d' ->
  In (k, p) d \/ (k = stem p /\ In p files /\ records_profile w p).
Proof.
  revert d; induction files as [|f files IH]; simpl; intros d Hscan Hin.
  - injection Hscan as <-. now left.
  - destruct (try_defaults_file w f d) as [d1|e] eqn:Htry.
    + destruct (IH _ Hscan Hin) as [H | (Hk & Hp & Hrec)]; [|now auto].
      destruct (try_defaults_file_records _ _ _ Htry) as [-> | [-> Hrec]]; [now left|].
      destruct (dict_set_In_inv _ _ _ _ _ H) as [[= -> ->] | H']; auto.
    + destruct (caught_in_discovery e); [|discriminate].
      destruct (IH _ Hscan Hin) as [H | (Hk & Hp & Hrec)]; auto.
Qed.

(** An entry stays when no later recorded file has its key. *)
Lemma scan_defaults_keeps_entry (files : list PurePath) (d d' : Dict) (k : string)
    (p : PurePath) :
  scan_defaults w files d = Returned d' ->
  In (k, p) d ->
  (forall g, In g files -> records_profile w g -> stem g <> k) ->
  In (k, p) d'.
Proof.
  revert d; induction files as [|f files IH]; simpl; intros d Hscan Hin Hlater.
  - now injection Hscan as <-.
  - destruct (try_defaults_file w f d) as [d1|e] eqn:Htry.
    + apply (IH d1); auto.
      destruct (try_defaults_file_records _ _ _ Htry) as [-> | [-> Hrec]]; [assumption|].
      apply dict_set_other; [|assumption].
      intros ->. now apply (Hlater f); auto.
    + destruct (caught_in_discovery e); [|discriminate]. apply (IH d); auto.
Qed.

End DiscoveryMore.

Lemma find_defaults_files_cases (w : World) (d : Dict) :
  _find_defaults_files w = Returned d ->
  d = []
  \/ exists data_dir,
       _get_pandoc_data_dir w = Returned (Some data_dir)
       /\ is_dir w (str (joinpath data_dir "defaults")) = true
       /\ scan_defaults w
            (glob_yaml (scandir w (str (joinpath data_dir "defaults")))
               (joinpath data_dir "defaults")) []
          = Returned d.
Proof.
  unfold _find_defaults_files.
  destruct (_get_pandoc_data_dir w) as [[data_dir|]|e]; simpl; try discriminate.
  - destruct (is_dir w (str (joinpath data_dir "defaults"))) eqn:Hdir; simpl.
    + intros H. right. now exists data_dir.
    + intros [= <-]. now left.
  - intros [= <-]. now left.
Qed.

Lemma find_defaults_files_NoDup (w : World) (d : Dict) :
  _find_defaults_files w = Returned d -> NoDup (map fst d).
Proof.
  intros H. destruct (find_defaults_files_cases w d H) as [-> | (data_dir & _ & _ & Hscan)].
  - constructor.
  - apply (scan_defaults_invariant w _ _ _ Hscan). constructor.
Qed.

Lemma find_defaults_files_records (w : World) (d : Dict) (k : string) (p : PurePath) :
  _find_defaults_files w = Returned d -> In (k, p) d -> records_profile w p.
Proof.
  intros H Hin.
  destruct (find_defaults_files_cases w d H) as [-> | (data_dir & _ & _ & Hscan)];
    [contradiction|].
  now destruct (scan_defaults_sound w _ _ _ _ _ Hscan Hin) as [[] | (_ & _ & Hrec)].
Qed.

(** X1.  The mapping that discovery returns has no two entries under the
    same key. *)
Theorem discovered_keys_distinct (w : World) (d : Dict) :
  _find_defaults_files w = Returned d -> NoDup (map fst d).
Proof. apply find_defaults_files_NoDup. Qed.

Lemma discovered_keys_distinct_witness :
  NoDup (map fst [("tex", Path "/home/u/.pandoc/defaults/tex.yaml");
                  (".yaml", Path "/home/u/.pandoc/defaults/.yaml.yaml")]).
Proof.
  apply (discovered_keys_distinct
           (example_world ["tex.yaml"; ".yaml"; ".yaml.yaml"]
              (fun _ => Returned (Yaml.Map [(Yaml.Str "to", Yaml.Str "latex")]))
              (Exited 0))).
  reflexivity.
Defined.

(** X2.  Every entry of the mapping that discovery returns stands for a
    [*.yaml] entry of the [defaults] directory of the data directory: its
    value is the path of that entry, its key the stem of the path, and the
    file loads to a dict whose [to] or [write] is true.  Nothing else gets
    into the mapping. *)
Theorem discovered_entries_sound (w : World) (d : Dict) (k : string) (p : PurePath) :
  _find_defaults_files w = Returned d ->
  In (k, p) d ->
  exists data_dir entry,
    _get_pandoc_data_dir w = Returned (Some data_dir)
    /\ In entry (scandir w (str (joinpath data_dir "defaults")))
    /\ PyStr.endswith ".yaml" entry = true
    /\ p = make_child_relpath (joinpath data_dir "defaults") entry
    /\ k = stem p
    /\ records_profile w p.
Proof.
  intros H Hin.
  destruct (find_defaults_files_cases w d H) as [-> | (data_dir & Hdata & _ & Hscan)];
    [contradiction|].
  destruct (scan_defaults_sound w _ _ _ _ _ Hscan Hin) as [[] | (Hk & Hp & Hrec)].
  unfold glob_yaml in Hp. apply in_map_iff in Hp as (entry & <- & Hentry).
  apply filter_In in Hentry as [Hentry Hyaml].
  exists data_dir, entry. now repeat split.
Qed.

Lemma discovered_entries_sound_witness :
  exists data_dir entry,
    _get_pandoc_data_dir (example_world ["html.yaml"; "filter.yaml"] example_docs (Exited 0))
    = Returned (Some data_dir)
    /\ In entry
         (scandir (example_world ["html.yaml"; "filter.yaml"] example_docs (Exited 0))
            (str (joinpath data_dir "defaults")))
    /\ PyStr.endswith ".yaml" entry = true
    /\ Path "/home/u/.pandoc/defaults/html.yaml"
       = make_child_relpath (joinpath data_dir "defaults") entry
    /\ "html" = stem (Path "/home/u/.pandoc/defaults/html.yaml")
    /\ records_profile
         (example_world ["html.yaml"; "filter.yaml"] example_docs (Exited 0))
         (Path "/home/u/.pandoc/defaults/html.yaml").
Proof.
  apply (discovered_entries_sound
           (example_world ["html.yaml"; "filter.yaml"] example_docs (Exited 0))
           [("html", Path "/home/u/.pandoc/defaults/html.yaml")]).
  - reflexivity.
  - simpl. auto.
Defined.

(** X3.  Files whose load raises a [YAMLError] or an [IOError] have no
    effect on the loop of discovery: it ends as it does on the list of
    files without them. *)
Theorem unreadable_files_are_skipped (w : World) (files : list PurePath) (d : Dict) :
  scan_defaults w files d
  = scan_defaults w (filter (fun f => negb (unreadable w f)) files) d.
Proof.
  revert d; induction files as [|f files IH]; simpl; intros d; [reflexivity|].
  unfold unreadable at 1, try_defaults_file at 1.
  destruct (safe_load w (str f)) as [config|e] eqn:Hload; simpl.
  - unfold try_defaults_file. rewrite Hload. simpl.
    destruct (output_format_of config) as [fmt|e]; simpl.
    + destruct (Yaml.truthy fmt); apply IH.
    + destruct (caught_in_discovery e); [apply IH | reflexivity].
  - destruct (caught_in_discovery e) eqn:He; simpl.
    + apply IH.
    + unfold try_defaults_file. rewrite Hload. simpl. now rewrite He.
Qed.

(** X4.  When two recorded files have the same stem the later one wins:
    after the loop, the stem of a recorded file is bound to that file
    provided no recorded file with the same stem follows it. *)
Theorem last_file_of_a_stem_wins (w : World) (before after : list PurePath)
    (f : PurePath) (d d' : Dict) :
  scan_defaults w (before ++ f :: after) d = Returned d' ->
  records_profile w f ->
  (forall g, In g after -> records_profile w g -> stem g <> stem f) ->
  In (stem f, f) d'.
Proof.
  intros Hscan Hrec Hlater.
  rewrite scan_defaults_app in Hscan.
  destruct (scan_defaults w before d) as [d1|e]; [|discriminate].
  simpl in Hscan. rewrite (try_defaults_file_recorded w f d1 Hrec) in Hscan.
  apply (scan_defaults_keeps_entry w after _ _ _ _ Hscan); auto using dict_set_In.
Qed.

Lemma last_file_of_a_stem_wins_witness :
  In (stem (Path "/d/.yaml.yaml"), Path "/d/.yaml.yaml")
     [("tex", Path "/d/tex.yaml"); (".yaml", Path "/d/.yaml.yaml")].
Proof.
  apply (last_file_of_a_stem_wins
           (example_world [] (fun _ => Returned (Yaml.Map [(Yaml.Str "to", Yaml.Str "latex")]))
              (Exited 0))
           [Path "/d/tex.yaml"; Path "/d/.yaml"] [] (Path "/d/.yaml.yaml") []).
  - reflexivity.
  - eexists. split; reflexivity.
  - intros g [].
Defined.

Lemma endswith_split (p s : string) :
  PyStr.endswith p s = true ->
  s = PyStr.take (String.length s - String.length p) s ++ p.
Proof.
  unfold PyStr.endswith. intros H. apply andb_true_iff in H as [_ H].
  apply String.eqb_eq in H.
  rewrite <- (take_drop (String.length s - String.length p) s) at 1.
  now rewrite H.
Qed.

Lemma name_make_child_relpath (p : PurePath) (entry : string) :
  name (make_child_relpath p entry) = entry.
Proof. unfold name, make_child_relpath. simpl. apply last_last. Qed.

(** X5.  The menu name of a discovered file is its file name without the
    final [.yaml]: for every entry that the pattern [*.yaml] matches, other
    than the entry [.yaml] itself, the entry is the stem of its path
    followed by [.yaml], and the stem is not empty. *)
Theorem menu_name_is_file_name_without_yaml (dir : PurePath) (entry : string) :
  PyStr.endswith ".yaml" entry = true ->
  entry <> ".yaml" ->
  entry = stem (make_child_relpath dir entry) ++ ".yaml"
  /\ stem (make_child_relpath dir entry) <> "".
Proof.
  intros Hyaml Hne. apply endswith_split in Hyaml.
  set (base := PyStr.take (String.length entry - String.length ".yaml") entry) in *.
  assert (Hbase : base <> "").
  { intros E. rewrite E in Hyaml. now apply Hne. }
  unfold stem. rewrite name_make_child_relpath.
  assert (Hstem : stem_of_name entry = base).
  { rewrite Hyaml. apply (stem_suffix_of_plain base "yaml"); [assumption | discriminate | reflexivity]. }
  rewrite Hstem. now split.
Qed.

Lemma menu_name_is_file_name_without_yaml_witness :
  "my.profile.yaml"
  = stem (make_child_relpath (Path "/home/u/.pandoc/defaults") "my.profile.yaml") ++ ".yaml"
  /\ stem (make_child_relpath (Path "/home/u/.pandoc/defaults") "my.profile.yaml") <> "".
Proof.
  apply (menu_name_is_file_name_without_yaml (Path "/home/u/.pandoc/defaults")
           "my.profile.yaml").
  - reflexivity.
  - discriminate.
Defined.

(** ** The data directory ([_get_pandoc_data_dir]) *)

Lemma expanduser_raises (w : World) (p : PurePath) (e : exn) :
  expanduser w p = Raised e -> cls e = RuntimeError.
Proof.
  unfold expanduser. destruct (String.eqb (root p) ""); [|discriminate].
  destruct (tail p) as [|first rest]; [discriminate|].
  destruct (PyStr.startswith "~" first); [|discriminate].
  destruct (PyStr.startswith "~" (os_path_expanduser w first)); [|discriminate].
  now intros [= <-].
Qed.

(** X6.  When the home directory cannot be determined, that is when
    [os.path.expanduser("~")] gives back a text that starts with [~], the
    search for the data directory raises a [RuntimeError], and so do
    discovery and the construction of the extension: [Path.home()] is
    evaluated before any directory is tried. *)
Theorem no_home_directory_raises (w : World) :
  PyStr.startswith "~" (os_path_expanduser w "~") = true ->
  exists e,
    cls e = RuntimeError
    /\ _get_pandoc_data_dir w = Raised e
    /\ _find_defaults_files w = Raised e
    /\ __init__ w = (Raised e, []).
Proof.
  intros Hhome.
  assert (Hdata : exists e, cls e = RuntimeError /\ _get_pandoc_data_dir w = Raised e).
  { unfold _get_pandoc_data_dir.
    destruct (expanduser w _) as [xdg|e] eqn:Hxdg; simpl.
    - unfold Path_home, expanduser. simpl. rewrite Hhome. simpl.
      eexists. split; [|reflexivity]. reflexivity.
    - exists e. split; [now apply (expanduser_raises w _ e Hxdg) | reflexivity]. }
  destruct Hdata as (e & Hcls & Hdata). exists e.
  assert (Hfind : _find_defaults_files w = Raised e)
    by (unfold _find_defaults_files; now rewrite Hdata).
  repeat split; try assumption. unfold __init__. now rewrite Hfind.
Qed.

Lemma no_home_directory_raises_witness :
  exists e,
    cls e = RuntimeError
    /\ _get_pandoc_data_dir
         (mkWorld (Some "/data") (fun part => part) (fun _ => true) (fun _ => [])
            example_docs (fun _ _ => Exited 0))
       = Raised e
    /\ _find_defaults_files
         (mkWorld (Some "/data") (fun part => part) (fun _ => true) (fun _ => [])
            example_docs (fun _ _ => Exited 0))
       = Raised e
    /\ __init__
         (mkWorld (Some "/data") (fun part => part) (fun _ => true) (fun _ => [])
            example_docs (fun _ _ => Exited 0))
       = (Raised e, []).
Proof.
  apply (no_home_directory_raises
           (mkWorld (Some "/data") (fun part => part) (fun _ => true) (fun _ => [])
              example_docs (fun _ _ => Exited 0))).
  reflexivity.
Defined.

(** X7.  With [XDG_DATA_HOME] unset and a home directory [h], the data
    directory is [h/.local/share/pandoc] if that is a directory, else
    [h/.pandoc] if that is one, else there is none; and a data directory
    that is found is a directory. *)
Theorem data_dir_default_candidates (w : World) (h : string) :
  getenv_XDG_DATA_HOME w = None ->
  os_path_expanduser w "~" = h ->
  PyStr.startswith "~" h = false ->
  let first := mkPath (root (Path h)) (tail (Path h) ++ [".local"; "share"; "pandoc"])%list in
  let second := mkPath (root (Path h)) (tail (Path h) ++ [".pandoc"])%list in
  _get_pandoc_data_dir w
  = Returned (if is_dir w (str first) then Some first
              else if is_dir w (str second) then Some second
              else None)
  /\ forall p, _get_pandoc_data_dir w = Returned (Some p) -> is_dir w (str p) = true.
Proof.
  intros Henv Hhome Htilde first second.
  assert (H : _get_pandoc_data_dir w
              = Returned (if is_dir w (str first) then Some first
                          else if is_dir w (str second) then Some second
                          else None)).
  { unfold _get_pandoc_data_dir, Path_home, expanduser. rewrite Henv. simpl.
    rewrite Hhome, Htilde. simpl. unfold joinpath. simpl.
    rewrite <- !app_assoc. simpl. fold first second.
    destruct (is_dir w (str first)); [reflexivity|].
    now destruct (is_dir w (str second)). }
  split; [exact H|]. intros p Hp. rewrite H in Hp.
  destruct (is_dir w (str first)) eqn:E1; [now injection Hp as <-|].
  destruct (is_dir w (str second)) eqn:E2; [now injection Hp as <-|].
  discriminate.
Qed.

Lemma data_dir_default_candidates_witness :
  let w := example_world [] example_docs (Exited 0) in
  let first := mkPath (root (Path "/home/u"))
                 (tail (Path "/home/u") ++ [".local"; "share"; "pandoc"])%list in
  let second := mkPath (root (Path "/home/u")) (tail (Path "/home/u") ++ [".pandoc"])%list in
  _get_pandoc_data_dir w
  = Returned (if is_dir w (str first) then Some first
              else if is_dir w (str second) then Some second
              else None)
  /\ forall p, _get_pandoc_data_dir w = Returned (Some p) -> is_dir w (str p) = true.
Proof.
  apply (data_dir_default_candidates (example_world [] example_docs (Exited 0)) "/home/u");
    reflexivity.
Defined.

(** ** More on paths *)

Section PathMore.

Lemma startswith_char (c a : ascii) (s : string) :
  PyStr.startswith (String c "") (String a s) = Ascii.eqb c a.
Proof.
  unfold PyStr.startswith. simpl. destruct (ascii_dec c a) as [-> | Hne].
  - rewrite Ascii.eqb_refl. now destruct s.
  - symmetry. now apply Ascii.eqb_neq.
Qed.

Lemma splitroot_relative (s : string) :
  PyStr.startswith "/" s = false -> splitroot s = ("", s).
Proof.
  destruct s as [|a s]; [reflexivity|].
  rewrite startswith_char. intros Hne. apply Ascii.eqb_neq in Hne.
  destruct a as [[] [] [] [] [] [] [] []]; try reflexivity. now elim Hne.
Qed.

Lemma splitroot_rooted (s : string) :
  splitroot (String "/" s)
  = (if (PyStr.len (String "/" s) - PyStr.len (PyStr.lstrip "/" (String "/" s)) =? 2)%Z
     then "//" else "/",
     PyStr.lstrip "/" (String "/" s)).
Proof.
  unfold splitroot.
  now destruct (PyStr.len (String "/" s) - PyStr.len (PyStr.lstrip "/" (String "/" s)) =? 2)%Z.
Qed.

Lemma startswith_slash (s : string) :
  PyStr.startswith "/" s = true -> exists t, s = String "/" t.
Proof.
  destruct s as [|a s]; [discriminate|]. rewrite startswith_char.
  intros H. apply Ascii.eqb_eq in H. subst a. now exists s.
Qed.

Lemma split_by_sep_free (s : string) :
  Forall (fun x => PyStr.contains "/" x = false) (PyStr.split_by is_sep s).
Proof.
  induction s as [|a s IH]; simpl.
  - now repeat constructor.
  - unfold is_sep at 1. destruct (Ascii.eqb a "/") eqn:E.
    + now constructor.
    + destruct (PyStr.split_by is_sep s) as [|x xs].
      * repeat constructor. simpl. now rewrite E.
      * inversion IH; subst. constructor; [|assumption]. simpl. now rewrite E.
Qed.

Lemma split_by_single (x : string) :
  PyStr.contains "/" x = false -> PyStr.split_by is_sep x = [x].
Proof.
  induction x as [|a x IH]; simpl; [reflexivity|].
  intros H. apply orb_false_iff in H as [Ha Hx].
  change (Ascii.eqb a "/") with (is_sep a) in Ha. rewrite Ha.
  now rewrite IH.
Qed.

Lemma split_by_app (x t : string) :
  PyStr.contains "/" x = false ->
  PyStr.split_by is_sep (x ++ String "/" t) = x :: PyStr.split_by is_sep t.
Proof.
  induction x as [|a x IH]; simpl; [reflexivity|].
  intros H. apply orb_false_iff in H as [Ha Hx].
  change (Ascii.eqb a "/") with (is_sep a) in Ha. rewrite Ha.
  now rewrite IH.
Qed.

Lemma split_join (parts : list string) :
  parts <> [] ->
  Forall (fun x => PyStr.contains "/" x = false) parts ->
  PyStr.split_by is_sep (PyStr.join "/" parts) = parts.
Proof.
  induction parts as [|x [|y parts] IH]; intros Hne Hall.
  - contradiction.
  - simpl. inversion Hall; subst. now apply split_by_single.
  - inversion Hall; subst.
    change (PyStr.join "/" (x :: y :: parts))
      with (x ++ String "/" (PyStr.join "/" (y :: parts))).
    rewrite split_by_app by assumption. f_equal. apply IH; [discriminate | assumption].
Qed.

Lemma filter_keep_part (parts : list string) :
  Forall component_ok parts -> filter keep_part parts = parts.
Proof.
  induction 1 as [|x parts (H1 & H2 & _) _ IH]; [reflexivity|].
  assert (Hkeep : keep_part x = true).
  { unfold keep_part. apply String.eqb_neq in H1, H2. now rewrite H1, H2. }
  cbn [filter]. now rewrite Hkeep, IH.
Qed.

Lemma Path_well_formed (s : string) : well_formed (Path s).
Proof.
  unfold well_formed, Path.
  assert (Htail : forall rel, Forall component_ok (filter keep_part (PyStr.split_by is_sep rel))).
  { intros rel. apply Forall_forall. intros x Hx. apply filter_In in Hx as [Hin Hkeep].
    unfold keep_part in Hkeep. apply andb_true_iff in Hkeep as [H1 H2].
    apply negb_true_iff, String.eqb_neq in H1, H2.
    repeat split; try assumption.
    pose proof (split_by_sep_free rel) as Hfree.
    rewrite Forall_forall in Hfree. now apply Hfree. }
  destruct (PyStr.startswith "/" s) eqn:E.
  - apply startswith_slash in E as (t & ->). rewrite splitroot_rooted.
    split; [|apply Htail]. simpl root.
    destruct (_ =? 2)%Z; auto.
  - rewrite splitroot_relative by assumption. split; [now left | apply Htail].
Qed.

Lemma join_head (x : string) (xs : list string) :
  x <> "" -> PyStr.contains "/" x = false ->
  exists a rest,
    PyStr.join "/" (x :: xs) = String a rest /\ Ascii.eqb a "/" = false.
Proof.
  intros Hx Hfree. destruct x as [|a x]; [contradiction|].
  simpl in Hfree. apply orb_false_iff in Hfree as [Ha _].
  destruct xs; simpl; eauto.
Qed.

Lemma Path_str (p : PurePath) : well_formed p -> Path (str p) = p.
Proof.
  destruct p as [r t]. unfold well_formed. simpl. intros [Hroot Hall].
  destruct t as [|x xs].
  - destruct Hroot as [-> | [-> | ->]]; reflexivity.
  - assert (Hfree : Forall (fun y => PyStr.contains "/" y = false) (x :: xs)).
    { eapply Forall_impl; [|exact Hall]. now intros y (_ & _ & H). }
    inversion Hall as [|? ? (Hx & _ & Hslash) _]; subst.
    destruct (join_head x xs Hx Hslash) as (a & rest & Hjoin & Ha).
    assert (Hsplit : filter keep_part (PyStr.split_by is_sep (String a rest)) = x :: xs).
    { rewrite <- Hjoin, split_join by (assumption || discriminate).
      now apply filter_keep_part. }
    assert (Hstrip : PyStr.lstrip "/" (String a rest) = String a rest)
      by (simpl; now rewrite Ha).
    unfold str, Path. cbn [root tail]. rewrite Hjoin.
    destruct Hroot as [-> | [-> | ->]]; simpl append.
    + change (String a rest =? "") with false. cbv iota.
      rewrite splitroot_relative; [now rewrite Hsplit|].
      now rewrite startswith_char, Ascii.eqb_sym.
    + change (String "/" (String a rest) =? "") with false. cbv iota.
      rewrite splitroot_rooted.
      change (PyStr.lstrip "/" (String "/" (String a rest)))
        with (PyStr.lstrip "/" (String a rest)).
      rewrite Hstrip, Hsplit. unfold PyStr.len. simpl String.length.
      replace (_ =? 2)%Z with false; [reflexivity|].
      symmetry. apply Z.eqb_neq. lia.
    + change (String "/" (String "/" (String a rest)) =? "") with false. cbv iota.
      rewrite splitroot_rooted.
      change (PyStr.lstrip "/" (String "/" (String "/" (String a rest))))
        with (PyStr.lstrip "/" (String a rest)).
      rewrite Hstrip, Hsplit. unfold PyStr.len. simpl String.length.
      replace (_ =? 2)%Z with true; [reflexivity|].
      symmetry. apply Z.eqb_eq. lia.
Qed.

End PathMore.

(** X8.  The text of a path, parsed again, is the path: [_convert_file]
    hands [str(input_path)] to the child and [_run_conversion] rebuilds the
    same [Path] from it, for the path of every selected file. *)
Theorem path_text_round_trip (s : string) : Path (str (Path s)) = Path s.
Proof. apply Path_str, Path_well_formed. Qed.

(** ** More on the output path *)

Section OutputPathMore.

Lemma contains_app (c : ascii) (s t : string) :
  PyStr.contains c (s ++ t) = PyStr.contains c s || PyStr.contains c t.
Proof.
  induction s as [|a s IH]; simpl; [reflexivity|]. now rewrite IH, orb_assoc.
Qed.

(** The last occurrence of a character that occurs. *)
Lemma last_occurrence (c : ascii) (s : string) :
  PyStr.contains c s = true ->
  exists b x, s = b ++ String c x /\ PyStr.contains c x = false.
Proof.
  induction s as [|a s IH]; simpl; [discriminate|].
  destruct (PyStr.contains c s) eqn:Hs.
  - intros _. destruct (IH eq_refl) as (b & x & -> & Hx).
    now exists (String a b), x.
  - rewrite orb_false_r. intros Ha. apply Ascii.eqb_eq in Ha. subst a.
    now exists "", s.
Qed.

(** A name with a suffix is its stem, a dot and a name without a dot. *)
Lemma suffix_of_name_shape (nm : string) :
  suffix_of_name nm <> "" ->
  exists x,
    nm = stem_of_name nm ++ String "." x
    /\ suffix_of_name nm = String "." x
    /\ x <> ""
    /\ PyStr.contains "." x = false.
Proof.
  intros Hsfx. destruct (PyStr.contains "." nm) eqn:Hdot.
  - destruct (last_occurrence _ _ Hdot) as (b & x & -> & Hx).
    unfold suffix_of_name, stem_of_name in *.
    rewrite rfind_last in * by assumption.
    destruct (splits_at (b ++ String "." x) (PyStr.len b)) eqn:E; [|now elim Hsfx].
    unfold PyStr.slice_from, PyStr.slice_to, PyStr.len. rewrite Nat2Z.id.
    rewrite take_app, drop_app. exists x. repeat split; try assumption.
    unfold splits_at, PyStr.len in E. rewrite length_app in E. simpl in E.
    apply andb_true_iff in E as [_ E]. apply Z.ltb_lt in E.
    apply nonempty_length. lia.
  - unfold suffix_of_name in Hsfx. unfold PyStr.rfind in Hsfx.
    rewrite rfind_from_absent in Hsfx by assumption. now elim Hsfx.
Qed.

Lemma name_free_of_slash (p : PurePath) :
  well_formed p -> PyStr.contains "/" (name p) = false.
Proof.
  intros [_ Hall]. unfold name. destruct (tail p) as [|x xs] eqn:E; [reflexivity|].
  rewrite Forall_forall in Hall.
  destruct (Hall (last (x :: xs) "")) as (_ & _ & H); [|exact H].
  destruct (exists_last (l := x :: xs)) as (l' & y & Hl); [discriminate|].
  rewrite Hl, last_last. apply in_or_app. right. now left.
Qed.

(** Replacing the suffix of a path by that same suffix gives the path. *)
Lemma with_suffix_same (p : PurePath) :
  well_formed p -> suffix p <> "" -> with_suffix p (suffix p) = Returned p.
Proof.
  intros Hwf Hsfx. unfold suffix in Hsfx.
  destruct (suffix_of_name_shape _ Hsfx) as (x & Hnm & Hsuffix & Hx & Hdot).
  assert (Hname : name p <> "").
  { intros E. rewrite E in Hsfx. now elim Hsfx. }
  assert (Hslash : PyStr.contains "/" x = false).
  { pose proof (name_free_of_slash p Hwf) as H. rewrite Hnm, contains_app in H.
    apply orb_false_iff in H as [_ H]. simpl in H. exact H. }
  destruct (with_suffix_valid p x Hname (conj Hx Hslash)) as (q & Hq & Hpar & Hnmq).
  unfold suffix. rewrite Hsuffix, Hq. f_equal.
  unfold stem in Hnmq. rewrite <- Hnm in Hnmq.
  destruct p as [r t], q as [r' t']. unfold parent, name in *. simpl in *.
  injection Hpar as -> Hrem.
  assert (Ht : t <> []) by (intros ->; now elim Hname).
  assert (Ht' : t' <> []) by (intros ->; simpl in Hnmq; now elim Hname).
  rewrite (app_removelast_last "" Ht), (app_removelast_last "" Ht').
  now rewrite Hrem, Hnmq.
Qed.

Lemma extension_of_nonempty (base_format : string) : extension_of base_format <> "".
Proof.
  unfold extension_of, FORMAT_EXTENSIONS, table_get.
  repeat match goal with
         | |- context [String.eqb ?k base_format] =>
             destruct (String.eqb k base_format)
         end; discriminate.
Qed.

End OutputPathMore.

(** X9.  Nothing keeps the output apart from the source: when the suffix of
    the source is the extension the output format resolves to, the output
    path, which pandoc gets after [-o], is the source path itself. *)
Theorem output_path_can_be_the_source (input_path s : string) :
  suffix (Path input_path) = extension_of (prefix_before_first is_plus_or_minus s) ->
  output_path_of input_path (Yaml.Str s) = Returned (Path input_path).
Proof.
  intros Hsfx. unfold output_path_of. rewrite base_format_of_str. simpl result_bind.
  rewrite <- Hsfx. apply with_suffix_same; [apply Path_well_formed|].
  rewrite Hsfx. apply extension_of_nonempty.
Qed.

Lemma output_path_can_be_the_source_witness :
  output_path_of "/home/u/notes.md" (Yaml.Str "markdown+smart")
  = Returned (Path "/home/u/notes.md").
Proof.
  apply (output_path_can_be_the_source "/home/u/notes.md" "markdown+smart").
  reflexivity.
Defined.

(** X10.  Every entry of [FORMAT_EXTENSIONS] is reached: its key, alone or
    followed by extension modifiers that start with [+] or [-], resolves to
    its value. *)
Theorem table_formats_resolve (k v mods : string) (c : ascii) :
  In (k, v) FORMAT_EXTENSIONS ->
  c = "+"%char \/ c = "-"%char ->
  (let* b := base_format_of (Yaml.Str k) in Returned (extension_of b)) = Returned v
  /\ (let* b := base_format_of (Yaml.Str (k ++ String c mods)) in
      Returned (extension_of b)) = Returned v.
Proof.
  intros Hin Hc. rewrite !base_format_of_str. simpl result_bind.
  unfold FORMAT_EXTENSIONS in Hin. simpl in Hin.
  repeat (destruct Hin as [Hin | Hin]; [injection Hin as <- <-|]);
    try contradiction;
    (destruct Hc as [-> | ->]; split; reflexivity).
Qed.

Lemma table_formats_resolve_witness :
  (let* b := base_format_of (Yaml.Str "tei") in Returned (extension_of b)) = Returned ".xml"
  /\ (let* b := base_format_of (Yaml.Str ("tei" ++ String "-" "smart+x")) in
      Returned (extension_of b)) = Returned ".xml".
Proof.
  apply (table_formats_resolve "tei" ".xml" "smart+x" "-").
  - simpl. auto 10.
  - now right.
Defined.

(** ** More on the child process *)

Section ChildMore.

Variables (w : World) (input_path defaults_file : string).

Lemma except_bound (e : exn) (p : PurePath) (started : list call) :
  name p = name (Path input_path) ->
  (let (c, fr) := _run_conversion_except w e (mkFrame (Some p) started) in
   (end_call c, calls fr))
  = notify_error w input_path e started.
Proof.
  intros Hname. unfold _run_conversion_except, notify_error.
  rewrite bind_get_input_path_obj. unfold subprocess_run, notify_call, error_body.
  cbn [argv cwd input_path_obj calls]. rewrite Hname.
  now destruct (run_process w _ None).
Qed.

(** The call, once the format is a non-empty string. *)
Lemma run_conversion_with_format (config : Yaml.value) (s : string) :
  safe_load w defaults_file = Returned config ->
  output_format_of config = Returned (Yaml.Str s) ->
  s <> "" ->
  _run_conversion w input_path defaults_file
  = match output_path_of input_path (Yaml.Str s) with
    | Raised e => notify_error w input_path e []
    | Returned q =>
        let pc := pandoc_call input_path defaults_file (str q) in
        let done :=
          notify_call "Pandoc Conversion Complete"
            ("Converted " ++ name (Path input_path) ++ " to " ++ name q) in
        match run_process w (argv pc) (cwd pc) with
        | LaunchFailed e => notify_error w input_path e [pc]
        | Exited status =>
            if (status =? 0)%Z then
              match run_process w (argv done) (cwd done) with
              | Exited _ => (Returned tt, [pc; done])
              | LaunchFailed e => notify_error w input_path e [pc; done]
              end
            else notify_error w input_path
                   (called_process_error status (argv pc)) [pc]
        end
    end.
Proof.
  intros Hload Hfmt Hs.
  assert (Htruth : Yaml.truthy (Yaml.Str s) = true)
    by (simpl; apply String.eqb_neq in Hs; now rewrite Hs).
  rewrite run_conversion_unfold. unfold _run_conversion_try.
  rewrite Hload, bind_lift_Returned, Hfmt, bind_lift_Returned, Htruth.
  cbn [negb]. unfold output_path_of.
  destruct (base_format_of (Yaml.Str s)) as [base|e] eqn:Hbase; [|discriminate].
  rewrite bind_lift_Returned, bind_set_input_path_obj, bind_get_input_path_obj.
  simpl result_bind.
  destruct (with_suffix (Path input_path) (extension_of base)) as [q|e] eqn:Hout.
  - rewrite bind_lift_Returned. cbv zeta.
    unfold pandoc_call, notify_call. cbn [argv cwd].
    unfold bind at 1, subprocess_run at 1. cbn [input_path_obj calls empty_frame app].
    destruct (run_process w _ (Some _)) as [status|e] eqn:Hrun.
    + cbn [andb]. destruct (status =? 0)%Z; cbn [negb].
      * rewrite bind_get_input_path_obj. unfold subprocess_run.
        cbn [input_path_obj calls app].
        destruct (run_process w _ None) as [status'|e] eqn:Hdone; [reflexivity|].
        now rewrite except_bound.
      * now rewrite except_bound.
    + now rewrite except_bound.
  - rewrite bind_lift_Raised. now rewrite except_bound.
Qed.

(** The call, when the format is not a non-empty string: nothing is
    started. *)
Lemma run_conversion_without_format :
  (forall config s,
      safe_load w defaults_file = Returned config ->
      output_format_of config = Returned (Yaml.Str s) -> s = "") ->
  snd (_run_conversion w input_path defaults_file) = [].
Proof.
  intros Hno.
  destruct (safe_load w defaults_file) as [config|e] eqn:Hload.
  - destruct (output_format_of config) as [fmt|e] eqn:Hfmt.
    + destruct (Yaml.truthy fmt) eqn:Htruth.
      * destruct (base_format_of fmt) as [base|e] eqn:Hbase.
        -- destruct fmt; try discriminate.
           rewrite (Hno config s eq_refl Hfmt) in Htruth. discriminate.
        -- now rewrite (format_failure_escapes w input_path defaults_file _ _ _
                          Hload Hfmt Htruth Hbase).
      * rewrite run_conversion_unfold. unfold _run_conversion_try.
        now rewrite Hload, bind_lift_Returned, Hfmt, bind_lift_Returned, Htruth.
    + now rewrite (config_failure_escapes w input_path defaults_file _ _ Hload Hfmt).
  - rewrite run_conversion_unfold. unfold _run_conversion_try.
    now rewrite Hload, bind_lift_Raised.
Qed.

End ChildMore.

Section ChildShape.

Variables (w : World) (input_path defaults_file : string).

Lemma notify_error_launched (e : exn) (started : list call) :
  (forall title body, exists status,
      run_process w ["notify-send"; title; body] None = Exited status) ->
  notify_error w input_path e started
  = (Returned tt,
     (started ++ [notify_call "Pandoc Conversion Error" (error_body input_path e)])%list).
Proof.
  intros Hnotify. unfold notify_error, notify_call. cbn [argv cwd].
  destruct (Hnotify "Pandoc Conversion Error" (error_body input_path e)) as (status & H).
  now rewrite H.
Qed.

Lemma notify_error_calls (e : exn) (started : list call) :
  snd (notify_error w input_path e started)
  = (started ++ [notify_call "Pandoc Conversion Error" (error_body input_path e)])%list.
Proof.
  unfold notify_error. now destruct (run_process w _ _).
Qed.

(** Either nothing is started, or the format is a non-empty string. *)
Lemma run_conversion_cases :
  snd (_run_conversion w input_path defaults_file) = []
  \/ exists config s,
       safe_load w defaults_file = Returned config
       /\ output_format_of config = Returned (Yaml.Str s)
       /\ s <> "".
Proof.
  destruct (safe_load w defaults_file) as [config|e] eqn:Hload.
  - destruct (output_format_of config) as [fmt|e] eqn:Hfmt.
    + destruct fmt;
        try (left; apply run_conversion_without_format;
             intros config' s' Hload' Hfmt'; rewrite Hload in Hload';
             injection Hload' as <-; rewrite Hfmt in Hfmt'; discriminate).
      destruct (String.eqb_spec s "") as [-> | Hs].
      * left. apply run_conversion_without_format.
        intros config' s' Hload' Hfmt'. rewrite Hload in Hload'.
        injection Hload' as <-. rewrite Hfmt in Hfmt'. now injection Hfmt' as <-.
      * right. now exists config, s.
    + left. apply run_conversion_without_format.
      intros config' s' Hload' Hfmt'. rewrite Hload in Hload'.
      injection Hload' as <-. rewrite Hfmt in Hfmt'. discriminate.
  - left. apply run_conversion_without_format.
    intros config' s' Hload'. rewrite Hload in Hload'. discriminate.
Qed.

End ChildShape.

(** X11.  Once the format read from the defaults file is a non-empty
    string, and [notify-send] can be started, [_run_conversion] returns and
    the last process it starts is the one notification, of completion or of
    an error; before it at most pandoc was started.  This covers an invalid
    suffix, a pandoc that cannot be started and a pandoc that fails. *)
Theorem late_failures_are_notified (w : World) (input_path defaults_file : string)
    (config : Yaml.value) (s : string) :
  safe_load w defaults_file = Returned config ->
  output_format_of config = Returned (Yaml.Str s) ->
  s <> "" ->
  (forall title body, exists status,
      run_process w ["notify-send"; title; body] None = Exited status) ->
  exists started title body,
    _run_conversion w input_path defaults_file
    = (Returned tt, (started ++ [notify_call title body])%list)
    /\ (started = [] \/ exists out, started = [pandoc_call input_path defaults_file out])
    /\ (title = "Pandoc Conversion Complete"
        \/ title = "Pandoc Conversion Error"
           /\ exists e, body = error_body input_path e).
Proof.
  intros Hload Hfmt Hs Hnotify.
  rewrite (run_conversion_with_format w input_path defaults_file config s Hload Hfmt Hs).
  destruct (output_path_of input_path (Yaml.Str s)) as [q|e].
  - cbv zeta. destruct (run_process w _ _) as [status|e].
    + destruct (status =? 0)%Z.
      * unfold notify_call at 1 2. cbn [argv cwd].
        destruct (Hnotify "Pandoc Conversion Complete"
                    ("Converted " ++ name (Path input_path) ++ " to " ++ name q))
          as (status' & ->).
        exists [pandoc_call input_path defaults_file (str q)],
          "Pandoc Conversion Complete",
          ("Converted " ++ name (Path input_path) ++ " to " ++ name q).
        repeat split; eauto.
      * rewrite notify_error_launched by assumption.
        do 3 eexists. split; [reflexivity|]. split; eauto.
    + rewrite notify_error_launched by assumption.
      do 3 eexists. split; [reflexivity|]. split; eauto.
  - rewrite notify_error_launched by assumption.
    exists [], "Pandoc Conversion Error", (error_body input_path e).
    split; [reflexivity|]. split; eauto.
Qed.

Lemma late_failures_are_notified_witness :
  exists started title body,
    _run_conversion (example_world [] example_docs (LaunchFailed no_such_file))
      "/home/u/notes.md" "/home/u/.pandoc/defaults/html.yaml"
    = (Returned tt, (started ++ [notify_call title body])%list)
    /\ (started = []
        \/ exists out,
             started = [pandoc_call "/home/u/notes.md" "/home/u/.pandoc/defaults/html.yaml" out])
    /\ (title = "Pandoc Conversion Complete"
        \/ title = "Pandoc Conversion Error"
           /\ exists e, body = error_body "/home/u/notes.md" e).
Proof.
  apply (late_failures_are_notified
           (example_world [] example_docs (LaunchFailed no_such_file))
           "/home/u/notes.md" "/home/u/.pandoc/defaults/html.yaml"
           (Yaml.Map [(Yaml.Str "to", Yaml.Str "html")]) "html").
  - reflexivity.
  - reflexivity.
  - discriminate.
  - intros title body. exists 0%Z. reflexivity.
Defined.

(** X12.  The notification of completion is sent only after pandoc was
    started first and exited with status 0. *)
Theorem completion_means_pandoc_succeeded (w : World) (input_path defaults_file : string)
    (body : string) :
  In (notify_call "Pandoc Conversion Complete" body)
     (snd (_run_conversion w input_path defaults_file)) ->
  exists out,
    hd_error (snd (_run_conversion w input_path defaults_file))
    = Some (pandoc_call input_path defaults_file out)
    /\ run_process w (argv (pandoc_call input_path defaults_file out))
         (cwd (pandoc_call input_path defaults_file out))
       = Exited 0.
Proof.
  destruct (run_conversion_cases w input_path defaults_file)
    as [-> | (config & s & Hload & Hfmt & Hs)]; [intros []|].
  rewrite (run_conversion_with_format w input_path defaults_file config s Hload Hfmt Hs).
  destruct (output_path_of input_path (Yaml.Str s)) as [q|e].
  - cbv zeta. destruct (run_process w _ _) as [status|e] eqn:Hrun.
    + destruct (Z.eqb_spec status 0) as [-> | Hne].
      * intros _. exists (str q). split; [|exact Hrun].
        destruct (run_process w (argv (notify_call _ _)) _); [reflexivity|].
        now rewrite notify_error_calls.
      * rewrite notify_error_calls. simpl. intros [H | [H | []]]; discriminate.
    + rewrite notify_error_calls. simpl. intros [H | [H | []]]; discriminate.
  - rewrite notify_error_calls. simpl. intros [H | []]; discriminate.
Qed.

Lemma completion_means_pandoc_succeeded_witness :
  exists out,
    hd_error (snd (_run_conversion (example_world [] example_docs (Exited 0))
                     "/home/u/notes.md" "/home/u/.pandoc/defaults/html.yaml"))
    = Some (pandoc_call "/home/u/notes.md" "/home/u/.pandoc/defaults/html.yaml" out)
    /\ run_process (example_world [] example_docs (Exited 0))
         (argv (pandoc_call "/home/u/notes.md" "/home/u/.pandoc/defaults/html.yaml" out))
         (cwd (pandoc_call "/home/u/notes.md" "/home/u/.pandoc/defaults/html.yaml" out))
       = Exited 0.
Proof.
  apply (completion_means_pandoc_succeeded (example_world [] example_docs (Exited 0))
           "/home/u/notes.md" "/home/u/.pandoc/defaults/html.yaml"
           "Converted notes.md to notes.html").
  vm_compute. auto.
Defined.

(** X13.  [_run_conversion] starts at most three processes; only the first
    can be pandoc, and every other one is a [notify-send]. *)
Theorem processes_started (w : World) (input_path defaults_file : string) :
  let started := snd (_run_conversion w input_path defaults_file) in
  (List.length started <= 3)%nat
  /\ (forall c, hd_error started = Some c ->
                is_notify c \/ exists out, c = pandoc_call input_path defaults_file out)
  /\ Forall is_notify (tl started).
Proof.
  assert (Hn : forall title body, is_notify (notify_call title body))
    by (intros title body; now exists title, body).
  destruct (run_conversion_cases w input_path defaults_file)
    as [H | (config & s & Hload & Hfmt & Hs)]; cbv zeta.
  - rewrite H. simpl. repeat split; [lia | discriminate | constructor].
  - rewrite (run_conversion_with_format w input_path defaults_file config s Hload Hfmt Hs).
    destruct (output_path_of input_path (Yaml.Str s)) as [q|e].
    + cbv zeta. destruct (run_process w _ _) as [status|e].
      * destruct (status =? 0)%Z.
        -- destruct (run_process w (argv (notify_call _ _)) _);
             [|rewrite notify_error_calls]; simpl;
             (repeat split; [lia | intros c [= <-]; eauto | repeat constructor; apply Hn]).
        -- rewrite notify_error_calls. simpl.
           repeat split; [lia | intros c [= <-]; eauto | repeat constructor; apply Hn].
      * rewrite notify_error_calls. simpl.
        repeat split; [lia | intros c [= <-]; eauto | repeat constructor; apply Hn].
    + rewrite notify_error_calls. simpl.
      repeat split; [lia | intros c [= <-]; left; apply Hn | constructor].
Qed.

(** ** From the menu to the child *)

Section MenuMore.

Lemma sub_items_of_menu (d : Dict) (files : list FileInfo) (item : MenuItem) :
  In item (flat_map submenu_of (get_file_items d files)) ->
  exists file_info entry,
    files = [file_info] /\ In entry d /\ item = sub_item_of (file_path_of file_info) entry.
Proof.
  destruct files as [|f [|g files]].
  - rewrite get_file_items_not_single by (simpl; lia). intros [].
  - rewrite get_file_items_single.
    destruct (PyStr.in_list _ _); [|intros []].
    destruct d as [|e d]; [intros []|].
    cbn [flat_map convert_item submenu_of]. rewrite app_nil_r.
    intros Hin. apply in_map_iff in Hin as (entry & <- & Hentry).
    now exists f, entry.
  - rewrite get_file_items_not_single by (simpl; lia). intros [].
Qed.

Lemma sub_item_names_NoDup (file_path : PurePath) (d : Dict) :
  NoDup (map fst d) -> NoDup (map item_name_of (map (sub_item_of file_path) d)).
Proof.
  induction d as [|[k v] d IH]; simpl; intros Hnd; [constructor|].
  inversion Hnd as [|? ? Hnotin Hnd']; subst. constructor; [|now apply IH].
  intros Hin. apply Hnotin.
  rewrite map_map in Hin. apply in_map_iff in Hin as ([k' v'] & Hname & Hin').
  simpl in Hname. injection Hname as ->.
  apply in_map_iff. now exists (k, v').
Qed.

Lemma unquote_plain (s : string) :
  PyStr.contains "%" s = false -> Urllib.unquote s = s.
Proof.
  induction s as [|a s IH]; [reflexivity|].
  cbn [PyStr.contains]. intros H. apply orb_false_iff in H as [Ha Hs].
  specialize (IH Hs).
  destruct s as [|h [|l rest]]; try reflexivity.
  change (Urllib.unquote (String a (String h (String l rest))))
    with (match (if Ascii.eqb a "%" then Urllib.hex_byte h l else None) with
          | Some b => String b (Urllib.unquote rest)
          | None => String a (Urllib.unquote (String h (String l rest)))
          end).
  now rewrite Ha, IH.
Qed.

End MenuMore.

(** X14.  A profile on the menu does not end in the silent return of the
    child: for every sub menu item built from the mapping that [__init__]
    discovered, the handler starts a child whose call does not return with
    nothing started, as long as the defaults file loads as it did at
    discovery. *)
Theorem menu_item_is_not_dropped (w : World) (self : PandocConverterExtension)
    (out : list string) (files : list FileInfo) (item : MenuItem) :
  __init__ w = (Returned self, out) ->
  In item (flat_map submenu_of (get_file_items_of self files)) ->
  exists r, on_activate w item = Some r /\ r <> (Returned tt, []).
Proof.
  unfold __init__, get_file_items_of.
  destruct (_find_defaults_files w) as [d|e] eqn:Hfind; [|discriminate].
  intros [= <- _] Hitem. simpl in Hitem.
  destruct (sub_items_of_menu _ _ _ Hitem) as (f & [k p] & _ & Hentry & ->).
  destruct (find_defaults_files_records w d k p Hfind Hentry) as (items & Hload & Htruth).
  eexists. split; [reflexivity|]. unfold _convert_file.
  pose proof (output_format_of_map items) as Hfmt.
  set (fmt := if Yaml.truthy (Yaml.dict_get "to" items)
              then Yaml.dict_get "to" items else Yaml.dict_get "write" items) in Hfmt.
  assert (Hfmt_true : Yaml.truthy fmt = true).
  { unfold fmt. destruct (Yaml.truthy (Yaml.dict_get "to" items)) eqn:E; [exact E|].
    exact Htruth. }
  destruct (base_format_of fmt) as [base|e] eqn:Hbase.
  - destruct fmt as [| | |s| | |] eqn:Efmt; try discriminate.
    assert (Hs : s <> "") by (intros ->; discriminate).
    intros Heq. apply (f_equal snd) in Heq. revert Heq.
    rewrite (run_conversion_with_format w _ _ _ s Hload Hfmt Hs).
    destruct (output_path_of _ _) as [q|e'].
    + cbv zeta. destruct (run_process w _ _) as [status|e'].
      * destruct (status =? 0)%Z.
        -- destruct (run_process w (argv (notify_call _ _)) _);
             [|rewrite notify_error_calls]; discriminate.
        -- rewrite notify_error_calls. discriminate.
      * rewrite notify_error_calls. discriminate.
    + rewrite notify_error_calls. discriminate.
  - rewrite (format_failure_escapes w _ _ _ _ _ Hload Hfmt Hfmt_true Hbase).
    discriminate.
Qed.

Lemma menu_item_is_not_dropped_witness :
  exists r,
    on_activate (example_world ["html.yaml"] example_docs (Exited 0))
      (sub_item_of (Path "/home/u/notes.md")
         ("html", Path "/home/u/.pandoc/defaults/html.yaml"))
    = Some r
    /\ r <> (Returned tt, []).
Proof.
  apply (menu_item_is_not_dropped (example_world ["html.yaml"] example_docs (Exited 0))
           (mkExtension [("html", Path "/home/u/.pandoc/defaults/html.yaml")])
           ["Initializing Nautilus Pandoc Converter"]
           [mkFileInfo "file:///home/u/notes.md"]).
  - reflexivity.
  - simpl. auto.
Defined.

(** X15.  The sub menu items that an instance offers have distinct names:
    the names are built from the keys of the discovered mapping, which are
    distinct. *)
Theorem sub_item_names_distinct (w : World) (self : PandocConverterExtension)
    (out : list string) (files : list FileInfo) :
  __init__ w = (Returned self, out) ->
  NoDup (map item_name_of (flat_map submenu_of (get_file_items_of self files))).
Proof.
  unfold __init__, get_file_items_of.
  destruct (_find_defaults_files w) as [d|e] eqn:Hfind; [|discriminate].
  intros [= <- _]. simpl defaults_files.
  destruct files as [|f [|g files]];
    try (rewrite get_file_items_not_single by (simpl; lia); constructor).
  rewrite get_file_items_single.
  destruct (PyStr.in_list _ _); [|constructor].
  assert (Hnd : NoDup (map fst d)) by now apply (find_defaults_files_NoDup w).
  destruct d as [|entry d']; [constructor|].
  cbn [flat_map convert_item submenu_of]. rewrite app_nil_r.
  now apply sub_item_names_NoDup.
Qed.

Lemma sub_item_names_distinct_witness :
  NoDup (map item_name_of
           (flat_map submenu_of
              (get_file_items_of
                 (mkExtension [("html", Path "/home/u/.pandoc/defaults/html.yaml");
                               ("blank", Path "/home/u/.pandoc/defaults/blank.yaml")])
                 [mkFileInfo "file:///home/u/notes.md"]))).
Proof.
  apply (sub_item_names_distinct
           (example_world ["html.yaml"; "blank.yaml"] example_docs (Exited 0)) _
           ["Initializing Nautilus Pandoc Converter"]).
  reflexivity.
Defined.

(** X16.  The first seven characters of the URI of the selected file are
    dropped whatever they are, and a rest without [%] is taken as the path
    as it stands. *)
Theorem uri_prefix_is_dropped (pre rest : string) :
  String.length pre = 7%nat ->
  PyStr.contains "%" rest = false ->
  file_path_of (mkFileInfo (pre ++ rest)) = Path rest.
Proof.
  intros Hlen Hplain. unfold file_path_of, PyStr.slice_from. cbn [get_uri].
  change (Z.to_nat 7) with 7%nat. rewrite <- Hlen, drop_app.
  now rewrite unquote_plain.
Qed.

Lemma uri_prefix_is_dropped_witness :
  file_path_of (mkFileInfo ("sftp://" ++ "host/notes.md")) = Path "host/notes.md".
Proof.
  apply (uri_prefix_is_dropped "sftp://" "host/notes.md"); reflexivity.
Defined.

(** X17.  Discovery and the child do not ask the same of the format.  A
    document whose [to] or [write] is true but not a string (a list, a
    number) is recorded by discovery, so it is on the menu; in the child
    [re.split] raises a [TypeError] on it before [input_path_obj] is bound,
    the handler raises in its turn, and nothing is started. *)
Theorem non_string_format_is_listed_but_fails (w : World) (filepath : PurePath)
    (d : Dict) (input_path : string) (items : list (Yaml.value * Yaml.value))
    (fmt : Yaml.value) :
  safe_load w (str filepath) = Returned (Yaml.Map items) ->
  output_format_of (Yaml.Map items) = Returned fmt ->
  Yaml.truthy fmt = true ->
  (forall s, fmt <> Yaml.Str s) ->
  try_defaults_file w filepath d = Returned (dict_set (stem filepath) filepath d)
  /\ _run_conversion w input_path (str filepath) = (Raised unbound_input_path_obj, []).
Proof.
  intros Hload Hfmt Htruth Hnot. split.
  - unfold try_defaults_file. rewrite Hload. simpl result_bind.
    rewrite Hfmt. simpl result_bind. now rewrite Htruth.
  - assert (Hbase : exists e, base_format_of fmt = Raised e).
    { destruct fmt; try (eexists; reflexivity). now destruct (Hnot s). }
    destruct Hbase as (e & Hbase).
    apply (format_failure_escapes w input_path (str filepath) _ _ _ Hload Hfmt Htruth Hbase).
Qed.

Lemma non_string_format_is_listed_but_fails_witness :
  let w := example_world ["list.yaml"]
             (fun _ => Returned (Yaml.Map [(Yaml.Str "to", Yaml.Seq [Yaml.Str "html"])]))
             (Exited 0) in
  try_defaults_file w (Path "/home/u/.pandoc/defaults/list.yaml") []
  = Returned (dict_set (stem (Path "/home/u/.pandoc/defaults/list.yaml"))
                (Path "/home/u/.pandoc/defaults/list.yaml") [])
  /\ _run_conversion w "/home/u/notes.md" (str (Path "/home/u/.pandoc/defaults/list.yaml"))
     = (Raised unbound_input_path_obj, []).
Proof.
  apply (non_string_format_is_listed_but_fails
           (example_world ["list.yaml"]
              (fun _ => Returned (Yaml.Map [(Yaml.Str "to", Yaml.Seq [Yaml.Str "html"])]))
              (Exited 0))
           (Path "/home/u/.pandoc/defaults/list.yaml") [] "/home/u/notes.md"
           [(Yaml.Str "to", Yaml.Seq [Yaml.Str "html"])] (Yaml.Seq [Yaml.Str "html"])).
  - reflexivity.
  - reflexivity.
  - reflexivity.
  - discriminate.
Defined.
